(** * termineter/options.py: the typed option registry

    A shallow embedding of [lib/termineter/options.py] (Python 3: the module
    imports [collections.abc]) and the properties of its behaviour.

    Modelling choices.
    - A Python [str] is a Rocq [string]; each [ascii] stands for the code
      point 0..255 with the same number (the Latin-1 range of Unicode).  The
      [str] methods used by the module ([lower], [isdigit], [startswith],
      [count], [replace], slicing) are defined on that range.
    - A Python [int] is a [Z].  Conversions between [int] and decimal
      text are subject to the interpreter's limit on the number of digits,
      taken at its default of 4300.
    - The builtin [float] is a parameter of the development: nothing below
      depends on how a decimal literal is rounded.
    - [os.path.sep] is a parameter as well.
    - The dict [_options] is an association list in insertion order, which
      is the iteration order of a Python dict.
    - Methods run in a state-and-exception monad over the registry: a raised
      exception carries the registry as it was at the [raise].
    - A callback is a total function of its two arguments; what is kept of
      its result is its truth value.  A callback that raises, or that
      writes to the registry itself, is outside the model: what is proved
      of a call that reaches a callback is proved for a callback that
      returns. *)

From Stdlib Require Import ZArith NArith QArith List String Ascii Bool Lia.
Import ListNotations.

Local Open Scope string_scope.
Local Open Scope Z_scope.

(** ** The [str] methods the module uses *)

Definition ord (c : ascii) : N := N_of_ascii c.

Definition is_decimal (c : ascii) : bool :=
  ((48 <=? ord c) && (ord c <=? 57))%N.

(** [str.isdigit] accepts, besides the decimal digits, the characters whose
    Unicode numeric type is Digit: in the Latin-1 range the superscripts
    U+00B2, U+00B3 and U+00B9. *)
Definition char_isdigit (c : ascii) : bool :=
  is_decimal c || (ord c =? 178)%N || (ord c =? 179)%N || (ord c =? 185)%N.

Definition char_isupper (c : ascii) : bool :=
  ((65 <=? ord c) && (ord c <=? 90)
   || (192 <=? ord c) && (ord c <=? 222) && negb (ord c =? 215))%N.

Definition char_lower (c : ascii) : ascii :=
  if char_isupper c then ascii_of_N (ord c + 32) else c.

Fixpoint lower (s : string) : string :=
  match s with
  | EmptyString => EmptyString
  | String c s' => String (char_lower c) (lower s')
  end.

Fixpoint all_chars (p : ascii -> bool) (s : string) : bool :=
  match s with
  | EmptyString => true
  | String c s' => p c && all_chars p s'
  end.

Definition isdigit (s : string) : bool :=
  match s with
  | EmptyString => false
  | _ => all_chars char_isdigit s
  end.

Definition startswith (s pre : string) : bool := prefix pre s.

(** [s[n:]] *)
Fixpoint slice_from (n : nat) (s : string) : string :=
  match n, s with
  | O, _ => s
  | S n', String _ s' => slice_from n' s'
  | S _, EmptyString => EmptyString
  end.

(** [c in s] for a one-character [c]. *)
Fixpoint char_in (c : ascii) (s : string) : bool :=
  match s with
  | EmptyString => false
  | String d s' => Ascii.eqb c d || char_in c s'
  end.

(** [s.replace(old, new)] for a non-empty [old]: the occurrences are found
    from the left and do not overlap.  [skip] counts the characters of an
    occurrence that are still to be dropped. *)
Fixpoint replace_from (old new : string) (skip : nat) (s : string) : string :=
  match s with
  | EmptyString => EmptyString
  | String c s' =>
      match skip with
      | S k => replace_from old new k s'
      | O =>
          if prefix old s
          then new ++ replace_from old new (Nat.pred (length old)) s'
          else String c (replace_from old new O s')
      end
  end.

(** With an empty [old], Python puts [new] before every character and at
    the end. *)
Fixpoint replace_empty (new s : string) : string :=
  match s with
  | EmptyString => new
  | String c s' => new ++ String c (replace_empty new s')
  end.

Definition replace (s old new : string) : string :=
  match old with
  | EmptyString => replace_empty new s
  | _ => replace_from old new O s
  end.

(** [s.count(sub)] for a non-empty [sub], with the same scan. *)
Fixpoint count_from (sub : string) (skip : nat) (s : string) : Z :=
  match s with
  | EmptyString => 0
  | String c s' =>
      match skip with
      | S k => count_from sub k s'
      | O =>
          if prefix sub s
          then 1 + count_from sub (Nat.pred (length sub)) s'
          else count_from sub O s'
      end
  end.

Definition count (s sub : string) : Z :=
  match sub with
  | EmptyString => Z.of_nat (length s) + 1
  | _ => count_from sub O s
  end.

(** ** [int(s)] and [int(s, 16)] on digit strings

    [int] is only reached with a string that passed [isdigit] (base 10) or
    [string_is_hex] (base 16), so signs, blanks and underscores need no
    model.  A character that is no digit of the base raises [ValueError]:
    that is what Python does with a superscript digit, which [isdigit]
    lets through.  [ValueError] is also what a text of more digits than
    [sys.get_int_max_str_digits()] raises when the base is no power of
    two. *)

(** The default of [sys.get_int_max_str_digits()]. *)
Definition int_max_str_digits : Z := 4300.

Definition power_of_two (base : Z) : bool :=
  existsb (Z.eqb base) [2; 4; 8; 16; 32].

Definition digit_value (base : Z) (c : ascii) : option Z :=
  let n := Z.of_N (ord c) in
  let v := if is_decimal c then n - 48
           else if ((97 <=? ord c) && (ord c <=? 102))%N then n - 87
           else if ((65 <=? ord c) && (ord c <=? 70))%N then n - 55
           else base in
  if v <? base then Some v else None.

Fixpoint digits_value (base : Z) (acc : Z) (s : string) : option Z :=
  match s with
  | EmptyString => Some acc
  | String c s' =>
      match digit_value base c with
      | Some v => digits_value base (base * acc + v) s'
      | None => None
      end
  end.

Definition int_of_str (base : Z) (s : string) : option Z :=
  match s with
  | EmptyString => None
  | _ =>
      if negb (power_of_two base) && (int_max_str_digits <? Z.of_nat (length s))
      then None
      else digits_value base 0 s
  end.

(** ** [str(n)] for an [int]

    [None] stands for the [ValueError] that [str] raises for an [int] of
    more digits than the limit. *)

Definition digit_char (d : N) : ascii := ascii_of_N (48 + d).

Fixpoint str_digits (fuel : nat) (n : N) (acc : string) : string :=
  match fuel with
  | O => acc
  | S fuel' =>
      let acc' := String (digit_char (n mod 10)) acc in
      if (n <? 10)%N then acc' else str_digits fuel' (n / 10) acc'
  end.

Definition str_N (n : N) : string :=
  str_digits (S (N.to_nat (N.log2 n))) n EmptyString.

Definition str (n : Z) : option string :=
  let digits := str_N (Z.abs_N n) in
  if int_max_str_digits <? Z.of_nat (length digits) then None
  else Some (if n <? 0 then String "-" digits else digits).

(** ** [string_is_hex]

    In Python 3 [filter] returns an iterator object.  Such an object has
    neither [__bool__] nor [__len__], so its truth value is [True] whatever
    it would yield. *)

Inductive filter_object : Type :=
| filter (function : ascii -> bool) (iterable : string).

Definition filter_truth (_ : filter_object) : bool := true.

Definition string_is_hex (string : string) : bool :=
  if negb (0 <? Z.of_nat (length string)) then false
  else negb (filter_truth
               (filter (fun c => negb (char_in c "0123456789abcdefABCDEF"))
                       string)).

(** ** Values, exceptions and the two classes *)

Inductive exn : Type :=
| KeyError (key : string)
| TypeError (msg : string)
| ValueError
| Exception (msg : string).

Inductive result (A : Type) : Type :=
| Ok (a : A)
| Raise (e : exn).

Arguments Ok {A} a.
Arguments Raise {A} e.

(** The object passed as [directories]. *)
Record Directories : Type := {
  data_path : string;
  user_data : string
}.

(** ** A concrete platform for the examples

    [exact_float] reads a decimal literal made of digits and at most one
    point as the rational it denotes; [posix_sep] is [os.path.sep] on a
    POSIX system. *)

Fixpoint frac_digits (s : string) : nat :=
  match s with
  | EmptyString => O
  | String c s' => if Ascii.eqb c "." then length s' else frac_digits s'
  end.

Definition exact_float (s : string) : option Q :=
  let digits := replace s "." "" in
  if (count s "." <=? 1) && all_chars is_decimal digits then
    match int_of_str 10 digits with
    | Some m => Some (m # Z.to_pos (10 ^ Z.of_nat (frac_digits s)))
    | None => None
    end
  else None.

Definition posix_sep : string := "/".

Section Registry.

Set Default Proof Using "Type".

(** The values of the builtin [float] and the builtin itself on a string
    ([None] for [ValueError]). *)
Variable PyFloat : Type.
Variable float : string -> option PyFloat.

(** [os.path.sep] *)
Variable os_path_sep : string.

Inductive pyval : Type :=
| PNone
| PBool (b : bool)
| PInt (z : Z)
| PFloat (f : PyFloat)
| PStr (s : string).

Definition is_None (v : pyval) : bool :=
  match v with PNone => true | _ => false end.

(** class Option; [type] is the tag string the source stores. *)
Record Option : Type := {
  callback : option (pyval -> pyval -> bool);
  default : pyval;
  help : string;
  name : string;
  required : bool;
  type : string;
  value : pyval
}.

(** [Option.__init__] *)
Definition Option_init (name_ type_ help_ : string) (required_ : bool)
    (default_ : pyval) (callback_ : option (pyval -> pyval -> bool)) : Option :=
  {| name := name_;
     type := type_;
     help := help_;
     required := required_;
     default := default_;
     value := default_;
     callback := callback_ |}.

Definition with_value (o : Option) (v : pyval) : Option :=
  {| callback := callback o; default := default o; help := help o;
     name := name o; required := required o; type := type o; value := v |}.

Definition with_callback (o : Option) (cb : option (pyval -> pyval -> bool))
    : Option :=
  {| callback := cb; default := default o; help := help o;
     name := name o; required := required o; type := type o;
     value := value o |}.

(** A dict with [str] keys, in insertion order. *)
Definition dict : Type := list (string * Option).

Fixpoint dict_get (d : dict) (k : string) : option Option :=
  match d with
  | [] => None
  | (k', o) :: d' => if String.eqb k' k then Some o else dict_get d' k
  end.

(** [d[k] = o]: an existing key keeps its place, a new one goes last. *)
Fixpoint dict_set (d : dict) (k : string) (o : Option) : dict :=
  match d with
  | [] => [(k, o)]
  | (k', o') :: d' =>
      if String.eqb k' k then (k', o) :: d' else (k', o') :: dict_set d' k o
  end.

(** An attribute write on the object stored under [k]. *)
Fixpoint dict_update (d : dict) (k : string) (f : Option -> Option) : dict :=
  match d with
  | [] => []
  | (k', o) :: d' =>
      if String.eqb k' k then (k', f o) :: d' else (k', o) :: dict_update d' k f
  end.

Definition dict_keys (d : dict) : list string := map fst d.
Definition dict_values (d : dict) : list Option := map snd d.

(** class Options *)
Record Options : Type := {
  directories : Directories;
  _options : dict
}.

(** [Options.__init__] *)
Definition Options_init (directories_ : Directories) : Options :=
  {| directories := directories_; _options := [] |}.

(** ** The monad of the methods *)

Definition M (A : Type) : Type := Options -> Options * result A.

Definition ret {A} (a : A) : M A := fun self => (self, Ok a).

Definition raise {A} (e : exn) : M A := fun self => (self, Raise e).

Definition bind {A B} (m : M A) (k : A -> M B) : M B :=
  fun self =>
    match m self with
    | (self', Ok a) => k a self'
    | (self', Raise e) => (self', Raise e)
    end.

Notation "x <- m ;; k" := (bind m (fun x => k))
  (at level 61, m at next level, right associativity).
Notation "m ;; k" := (bind m (fun _ => k))
  (at level 61, right associativity).

(** [self._options[name]] *)
Definition get_option (name_ : string) : M Option :=
  fun self =>
    match dict_get (_options self) name_ with
    | Some o => (self, Ok o)
    | None => (self, Raise (KeyError name_))
    end.

(** [self._options[item].value] *)
Definition getitem (item : string) : M pyval :=
  option <- get_option item ;;
  ret (value option).

(** [self._options[name] = option] *)
Definition store_option (name_ : string) (o : Option) : M unit :=
  fun self =>
    ({| directories := directories self;
        _options := dict_set (_options self) name_ o |}, Ok tt).

(** [option.value = v], for the object held under [name_]. *)
Definition assign_value (name_ : string) (v : pyval) : M unit :=
  fun self =>
    ({| directories := directories self;
        _options := dict_update (_options self) name_
                      (fun o => with_value o v) |}, Ok tt).

(** [option.callback = cb], for the object held under [name_]. *)
Definition assign_callback (name_ : string)
    (cb : option (pyval -> pyval -> bool)) : M unit :=
  fun self =>
    ({| directories := directories self;
        _options := dict_update (_options self) name_
                      (fun o => with_callback o cb) |}, Ok tt).

Definition add_string (name_ help_ : string) (required_ : bool)
    (default_ : pyval) : M unit :=
  store_option name_ (Option_init name_ "str" help_ required_ default_ None).

Definition add_integer (name_ help_ : string) (required_ : bool)
    (default_ : pyval) : M unit :=
  store_option name_ (Option_init name_ "int" help_ required_ default_ None).

Definition add_float (name_ help_ : string) (required_ : bool)
    (default_ : pyval) : M unit :=
  store_option name_ (Option_init name_ "flt" help_ required_ default_ None).

Definition add_boolean (name_ help_ : string) (required_ : bool)
    (default_ : pyval) : M unit :=
  store_option name_ (Option_init name_ "bool" help_ required_ default_ None).

(** The two replacements of [add_rfile], done when [default] is a [str]. *)
Definition rfile_default (dirs : Directories) (default_ : pyval) : pyval :=
  match default_ with
  | PStr s =>
      let s1 := replace s "$DATA_PATH " (data_path dirs ++ os_path_sep) in
      let s2 := replace s1 "$USER_DATA " (user_data dirs ++ os_path_sep) in
      PStr s2
  | _ => default_
  end.

Definition add_rfile (name_ help_ : string) (required_ : bool)
    (default_ : pyval) : M unit :=
  fun self =>
    store_option name_
      (Option_init name_ "rfile" help_ required_
         (rfile_default (directories self) default_) None) self.

Definition set_callback (name_ : string) (callback_ : pyval -> pyval -> bool)
    : M unit :=
  option <- get_option name_ ;;
  assign_callback name_ (Some callback_).

(** [int(value)] and [int(value, 16)] on the local [value]. *)
Definition int_ (base : Z) (v : pyval) : M Z :=
  match v with
  | PInt z => ret z
  | PStr s =>
      match int_of_str base s with
      | Some z => ret z
      | None => raise ValueError
      end
  | _ => raise (TypeError "int() argument")
  end.

Definition float_ (s : string) : M PyFloat :=
  match float s with
  | Some f => ret f
  | None => raise ValueError
  end.

(** The [if]/[elif] chain of [set_option]: it assigns [option.value] and
    returns the local [value] as the chain leaves it. *)
Definition coerce (name_ type_ value_ : string) : M pyval :=
  if String.eqb type_ "str" || String.eqb type_ "rfile" then
    assign_value name_ (PStr value_) ;;
    ret (PStr value_)
  else if String.eqb type_ "int" then
    let value_ := lower value_ in
    value' <- (if negb (isdigit value_) then
                 if startswith value_ "0x"
                    && string_is_hex (slice_from 2 value_)
                 then z <- int_ 16 (PStr (slice_from 2 value_)) ;;
                      ret (PInt z)
                 else raise (TypeError "invalid value type")
               else ret (PStr value_)) ;;
    z <- int_ 10 value' ;;
    assign_value name_ (PInt z) ;;
    ret value'
  else if String.eqb type_ "flt" then
    if 1 <? count value_ "." then raise (TypeError "invalid value type")
    else if negb (isdigit (replace value_ "." ""))
    then raise (TypeError "invalid value type")
    else f <- float_ value_ ;;
         assign_value name_ (PFloat f) ;;
         ret (PStr value_)
  else if String.eqb type_ "bool" then
    if existsb (String.eqb (lower value_)) ["true"; "1"; "on"] then
      assign_value name_ (PBool true) ;;
      ret (PStr value_)
    else if existsb (String.eqb (lower value_)) ["false"; "0"; "off"] then
      assign_value name_ (PBool false) ;;
      ret (PStr value_)
    else raise (TypeError "invalid value type")
  else raise (Exception "unknown value type").

Definition set_option (name_ value_ : string) : M pyval :=
  option <- get_option name_ ;;
  let old_value := value option in
  value' <- coerce name_ (type option) value_ ;;
  (match callback option with
   | Some cb =>
       if negb (cb value' old_value) then assign_value name_ old_value
       else ret tt
   | None => ret tt
   end) ;;
  ret old_value.

Definition get_missing_options : M (list string) :=
  fun self =>
    (self,
     Ok (map name
           (List.filter (fun option => required option && is_None (value option))
              (dict_values (_options self))))).

(** The registry after [option.value = v] on the object under [name_]. *)
Definition put_value (self : Options) (name_ : string) (v : pyval) : Options :=
  fst (assign_value name_ v self).

(** What [set_option] leaves in [option.value] once the callback, if there
    is one, has been asked. *)
Definition settled (o : Option) (stored arg : pyval) : pyval :=
  match callback o with
  | Some cb => if cb arg (value o) then stored else value o
  | None => stored
  end.

(** ** Histories of calls

    A registry is built by a caller that makes one call after the other and
    goes on after an exception. *)

Inductive call : Type :=
| Add_string (name_ help_ : string) (required_ : bool) (default_ : pyval)
| Add_integer (name_ help_ : string) (required_ : bool) (default_ : pyval)
| Add_float (name_ help_ : string) (required_ : bool) (default_ : pyval)
| Add_boolean (name_ help_ : string) (required_ : bool) (default_ : pyval)
| Add_rfile (name_ help_ : string) (required_ : bool) (default_ : pyval)
| Set_callback (name_ : string) (callback_ : pyval -> pyval -> bool)
| Set_option (name_ value_ : string).

Definition perform (self : Options) (c : call) : Options :=
  match c with
  | Add_string n h r d => fst (add_string n h r d self)
  | Add_integer n h r d => fst (add_integer n h r d self)
  | Add_float n h r d => fst (add_float n h r d self)
  | Add_boolean n h r d => fst (add_boolean n h r d self)
  | Add_rfile n h r d => fst (add_rfile n h r d self)
  | Set_callback n cb => fst (set_callback n cb self)
  | Set_option n v => fst (set_option n v self)
  end.

Definition run (dirs : Directories) (history : list call) : Options :=
  fold_left perform history (Options_init dirs).

(** The names a history declares, one entry per declaration. *)
Fixpoint declared (history : list call) : list string :=
  match history with
  | [] => []
  | c :: history' =>
      match c with
      | Add_string n _ _ _ | Add_integer n _ _ _ | Add_float n _ _ _
      | Add_boolean n _ _ _ | Add_rfile n _ _ _ => n :: declared history'
      | Set_callback _ _ | Set_option _ _ => declared history'
      end
  end.

(** The first occurrence of each name, in order. *)
Definition first_occurrences (l : list string) : list string :=
  fold_left (fun acc n => if existsb (String.eqb n) acc then acc else (acc ++ [n])%list)
    l [].

(** An entry of the dict is filed under the name it carries, and no key is
    held twice. *)
Definition well_formed (self : Options) : Prop :=
  NoDup (dict_keys (_options self))
  /\ Forall (fun entry => name (snd entry) = fst entry) (_options self).

(** Two options that differ at most in [value]. *)
Definition same_but_value (o o' : Option) : Prop :=
  name o' = name o /\ type o' = type o /\ help o' = help o
  /\ required o' = required o /\ default o' = default o
  /\ callback o' = callback o.

(** Every call leaves the registry either as it was, or with one entry
    stored, or with one attribute of one entry written. *)
Inductive effect (self : Options) : Options -> Prop :=
| effect_none : effect self self
| effect_store (k : string) (o : Option) :
    name o = k ->
    effect self {| directories := directories self;
                   _options := dict_set (_options self) k o |}
| effect_write (k : string) (f : Option -> Option) :
    (forall o, name (f o) = name o) ->
    effect self {| directories := directories self;
                   _options := dict_update (_options self) k f |}.

(** Whether the option filed under [n] is required and holds [None]. *)
Definition is_missing (self : Options) (n : string) : bool :=
  match dict_get (_options self) n with
  | Some o => required o && is_None (value o)
  | None => false
  end.

(** The name, required flag and default that a declaring call is given. *)
Definition declaration_of (c : call) : option (string * bool * pyval) :=
  match c with
  | Add_string n _ r d | Add_integer n _ r d | Add_float n _ r d
  | Add_boolean n _ r d | Add_rfile n _ r d => Some (n, r, d)
  | Set_callback _ _ | Set_option _ _ => None
  end.

(** What [set_option] may do to an entry of the dict: nothing to its key,
    nothing to the fields other than [value], and nothing at all under a
    key other than [name_]. *)
Definition entry_frame (name_ : string) (e e' : string * Option) : Prop :=
  fst e' = fst e
  /\ same_but_value (snd e) (snd e')
  /\ (fst e <> name_ -> snd e' = snd e).

(** [Options.__iter__]: the keys of the dict, in its order. *)
Definition __iter__ : M (list string) :=
  fun self => (self, Ok (dict_keys (_options self))).

(** [Options.__len__] *)
Definition __len__ : M Z :=
  fun self => (self, Ok (Z.of_nat (List.length (_options self)))).

(** The type the docstring of an [add_] method gives for the kind: [str]
    for 'str' and 'rfile', [int] for 'int', [float] for 'flt', [bool] for
    'bool'. *)
Definition native (type_ : string) (v : pyval) : bool :=
  match v with
  | PNone => false
  | PBool _ => String.eqb type_ "bool"
  | PInt _ => String.eqb type_ "int"
  | PFloat _ => String.eqb type_ "flt"
  | PStr _ => String.eqb type_ "str" || String.eqb type_ "rfile"
  end.

(** An option whose value is [None] or of the type of its kind. *)
Definition typed (o : Option) : bool :=
  is_None (value o) || native (type o) (value o).

(** A declaring call whose default is [None] or of the type its docstring
    asks for. *)
Definition typed_call (c : call) : bool :=
  match c with
  | Add_string _ _ _ d => is_None d || native "str" d
  | Add_integer _ _ _ d => is_None d || native "int" d
  | Add_float _ _ _ d => is_None d || native "flt" d
  | Add_boolean _ _ _ d => is_None d || native "bool" d
  | Add_rfile _ _ _ d => is_None d || native "rfile" d
  | Set_callback _ _ | Set_option _ _ => true
  end.

Definition is_dot (c : ascii) : bool := Ascii.eqb c ".".

(** The texts that pass the two guards of the Float branch: at most one
    point, nothing but characters that [isdigit] accepts beside it, and
    one of them at least. *)
Definition float_shape (s : string) : bool :=
  negb (1 <? count s ".")
  && all_chars (fun c => char_isdigit c || is_dot c) s
  && negb (all_chars is_dot s).

(** The typed value that the rule of a kind gives for a text: the text
    itself for 'str' and 'rfile', the int that the lowercased text reads as
    for 'int', the float of a text of digits with at most one point for
    'flt', True or False for the six literals of 'bool'. *)
Definition coerced_value (type_ value_ : string) (stored : pyval) : Prop :=
  match stored with
  | PNone => False
  | PBool true => type_ = "bool" /\ In (lower value_) ["true"; "1"; "on"]
  | PBool false => type_ = "bool" /\ In (lower value_) ["false"; "0"; "off"]
  | PInt z => type_ = "int" /\ isdigit (lower value_) = true
              /\ int_of_str 10 (lower value_) = Some z
  | PFloat f => type_ = "flt" /\ (1 <? count value_ ".") = false
                /\ isdigit (replace value_ "." "") = true
                /\ float value_ = Some f
  | PStr s => (type_ = "str" \/ type_ = "rfile") /\ s = value_
  end.

(** * Properties *)

(** Arithmetic tactics look at the whole context: a proof that does not
    need the platform forgets it first. *)
Ltac clear_platform := try clear os_path_sep; try clear float; try clear PyFloat.

(** ** Decimal text *)

Lemma digit_char_cases (d : N) :
  (d < 10)%N ->
  is_decimal (digit_char d) = true
  /\ digit_value 10 (digit_char d) = Some (Z.of_N d).
Proof.
  intros H.
  assert (E : In d [0; 1; 2; 3; 4; 5; 6; 7; 8; 9]%N).
  { simpl. lia. }
  simpl in E.
  repeat (destruct E as [<-|E]; [split; reflexivity|]).
  destruct E.
Qed.

Lemma is_decimal_range (c : ascii) :
  is_decimal c = true <-> (48 <= ord c <= 57)%N.
Proof.
  clear_platform.
  unfold is_decimal. rewrite andb_true_iff, !N.leb_le. tauto.
Qed.

Lemma is_decimal_lower (c : ascii) : is_decimal c = true -> char_lower c = c.
Proof.
  intros H. apply is_decimal_range in H.
  unfold char_lower, char_isupper.
  replace (65 <=? ord c)%N with false by (symmetry; apply N.leb_gt; lia).
  replace (192 <=? ord c)%N with false by (symmetry; apply N.leb_gt; lia).
  reflexivity.
Qed.

Lemma is_decimal_isdigit (c : ascii) :
  is_decimal c = true -> char_isdigit c = true.
Proof. intros H. unfold char_isdigit. now rewrite H. Qed.

Lemma all_decimal_lower (s : string) :
  all_chars is_decimal s = true -> lower s = s.
Proof.
  induction s as [|c s IH]; simpl; [reflexivity|].
  intros H. apply andb_true_iff in H as [Hc Hs].
  now rewrite (is_decimal_lower c Hc), (IH Hs).
Qed.

Lemma all_decimal_isdigit (s : string) :
  s <> EmptyString -> all_chars is_decimal s = true -> isdigit s = true.
Proof.
  intros Hne H. destruct s as [|c s]; [congruence|].
  unfold isdigit. revert H. generalize (String c s). clear.
  induction s as [|c s IH]; simpl; [reflexivity|].
  intros H. apply andb_true_iff in H as [Hc Hs].
  now rewrite (is_decimal_isdigit c Hc), (IH Hs).
Qed.

Lemma all_chars_app (p : ascii -> bool) (s t : string) :
  all_chars p (s ++ t) = all_chars p s && all_chars p t.
Proof.
  induction s as [|c s IH]; simpl; [reflexivity|].
  now rewrite IH, andb_assoc.
Qed.

Lemma digits_value_app (base acc : Z) (s t : string) :
  digits_value base acc (s ++ t) =
  match digits_value base acc s with
  | Some acc' => digits_value base acc' t
  | None => None
  end.
Proof.
  revert acc. induction s as [|c s IH]; simpl; intros acc; [reflexivity|].
  destruct (digit_value base c); [apply IH|reflexivity].
Qed.

Lemma string_app_assoc (s t u : string) : (s ++ t) ++ u = s ++ t ++ u.
Proof. induction s as [|c s IH]; simpl; [reflexivity|now rewrite IH]. Qed.

Lemma string_app_length (s t : string) :
  length (s ++ t) = (length s + length t)%nat.
Proof. induction s as [|c s IH]; simpl; [reflexivity|now rewrite IH]. Qed.

Lemma str_digits_S (fuel : nat) (n : N) (acc : string) :
  str_digits (S fuel) n acc =
  if (n <? 10)%N then String (digit_char (n mod 10)) acc
  else str_digits fuel (n / 10) (String (digit_char (n mod 10)) acc).
Proof. reflexivity. Qed.

(** With enough fuel [str_digits] puts the decimal digits of [n] in front
    of the accumulator. *)
Lemma str_digits_spec (fuel : nat) :
  forall (n : N) (acc : string),
  (n < 10 ^ N.of_nat (S fuel))%N ->
  exists ds,
    str_digits (S fuel) n acc = ds ++ acc
    /\ ds <> EmptyString
    /\ all_chars is_decimal ds = true
    /\ forall a, digits_value 10 a ds
                 = Some (a * 10 ^ Z.of_nat (length ds) + Z.of_N n).
Proof.
  induction fuel as [|fuel IH]; intros n acc Hn.
  - change (10 ^ N.of_nat 1)%N with 10%N in Hn.
    pose proof (proj2 (N.ltb_lt n 10) Hn) as Hlt.
    destruct (digit_char_cases n Hn) as [Hd Hv].
    exists (String (digit_char n) EmptyString).
    rewrite str_digits_S, (N.mod_small n 10 Hn), Hlt.
    repeat split.
    + discriminate.
    + cbn [all_chars]. now rewrite Hd.
    + intros a. cbn [digits_value length]. rewrite Hv.
      f_equal. change (10 ^ Z.of_nat 1) with 10. lia.
  - rewrite str_digits_S.
    assert (Hm : (n mod 10 < 10)%N) by (apply N.mod_lt; lia).
    destruct (digit_char_cases (n mod 10) Hm) as [Hd Hv].
    destruct (N.ltb_spec n 10) as [Hlt|Hge].
    + exists (String (digit_char (n mod 10)) EmptyString).
      repeat split.
      * discriminate.
      * cbn [all_chars]. now rewrite Hd.
      * intros a. cbn [digits_value length]. rewrite Hv.
        rewrite (N.mod_small n 10 Hlt).
        f_equal. change (10 ^ Z.of_nat 1) with 10. lia.
    + assert (Hq : (n / 10 < 10 ^ N.of_nat (S fuel))%N).
      { apply N.Div0.div_lt_upper_bound.
        replace (N.of_nat (S (S fuel))) with (N.succ (N.of_nat (S fuel))) in Hn
          by lia.
        now rewrite N.pow_succ_r' in Hn. }
      destruct (IH (n / 10)%N (String (digit_char (n mod 10)) acc) Hq)
        as (ds & Hds & Hne & Hall & Hval).
      exists (ds ++ String (digit_char (n mod 10)) EmptyString).
      repeat split.
      * rewrite Hds, string_app_assoc. reflexivity.
      * destruct ds; [congruence|discriminate].
      * rewrite all_chars_app, Hall. cbn [all_chars]. now rewrite Hd.
      * intros a. rewrite digits_value_app, Hval.
        cbn [digits_value]. rewrite Hv. f_equal.
        rewrite string_app_length. cbn [length].
        replace (Z.of_nat (length ds + 1)) with (Z.succ (Z.of_nat (length ds)))
          by lia.
        rewrite Z.pow_succ_r by lia.
        pose proof (N.div_mod n 10 ltac:(lia)) as Hdm.
        apply (f_equal Z.of_N) in Hdm.
        rewrite N2Z.inj_add, N2Z.inj_mul in Hdm.
        change (Z.of_N 10) with 10 in Hdm. lia.
Qed.

Lemma str_N_spec (n : N) :
  str_N n <> EmptyString
  /\ all_chars is_decimal (str_N n) = true
  /\ digits_value 10 0 (str_N n) = Some (Z.of_N n).
Proof.
  assert (Hn : (n < 10 ^ N.of_nat (S (N.to_nat (N.log2 n))))%N).
  { destruct n as [|p]; [reflexivity|].
    apply N.lt_le_trans with (2 ^ N.succ (N.log2 (N.pos p)))%N.
    - apply N.log2_spec. lia.
    - replace (N.of_nat (S (N.to_nat (N.log2 (N.pos p)))))
        with (N.succ (N.log2 (N.pos p))) by lia.
      apply N.pow_le_mono_l. lia. }
  destruct (str_digits_spec _ n EmptyString Hn) as (ds & Hds & Hne & Hall & Hv).
  unfold str_N. rewrite Hds.
  assert (E : ds ++ EmptyString = ds).
  { clear. induction ds as [|c ds IH]; simpl; [reflexivity|now rewrite IH]. }
  rewrite E. repeat split; trivial.
Qed.

(** A number below [10 ^ m] is written with [m] digits at most. *)
Lemma str_digits_length (fuel : nat) :
  forall (n : N) (acc : string) (m : nat),
  (1 <= m)%nat ->
  (n < 10 ^ N.of_nat m)%N ->
  (length (str_digits fuel n acc) <= m + length acc)%nat.
Proof.
  induction fuel as [|fuel IH]; intros n acc m Hm Hn; [cbn; lia|].
  rewrite str_digits_S.
  destruct (N.ltb_spec n 10) as [Hlt|Hge]; [cbn [length]; lia|].
  destruct m as [|[|m]]; [lia| |].
  - change (10 ^ N.of_nat 1)%N with 10%N in Hn. lia.
  - assert (Hq : (n / 10 < 10 ^ N.of_nat (S m))%N).
    { apply N.Div0.div_lt_upper_bound.
      replace (N.of_nat (S (S m))) with (N.succ (N.of_nat (S m))) in Hn
        by lia.
      now rewrite N.pow_succ_r' in Hn. }
    specialize (IH (n / 10)%N (String (digit_char (n mod 10)) acc) (S m)
                  ltac:(lia) Hq).
    cbn [length] in IH. lia.
Qed.

Lemma int_max_str_digits_pos : 1 <= int_max_str_digits.
Proof. unfold int_max_str_digits. lia. Qed.

Lemma str_N_within_limit (n limit : Z) :
  1 <= limit ->
  0 <= n < 10 ^ limit ->
  Z.of_nat (length (str_N (Z.abs_N n))) <= limit.
Proof.
  intros Hl [Hn Hlt].
  assert (Hm : (1 <= Z.to_nat limit)%nat) by lia.
  assert (Hb : (Z.abs_N n < 10 ^ N.of_nat (Z.to_nat limit))%N).
  { apply N2Z.inj_lt. rewrite N2Z.inj_pow, N2Z.inj_abs_N, nat_N_Z.
    rewrite Z2Nat.id by lia. rewrite Z.abs_eq by lia. exact Hlt. }
  pose proof (str_digits_length (S (N.to_nat (N.log2 (Z.abs_N n))))
                (Z.abs_N n) EmptyString (Z.to_nat limit) Hm Hb) as H.
  fold (str_N (Z.abs_N n)) in H. cbn [length] in H.
  apply Nat2Z.inj_le in H. rewrite Nat2Z.inj_add, Z2Nat.id in H by lia.
  change (Z.of_nat 0) with 0 in H. clear Hlt Hb. lia.
Qed.

(** ** The dict *)

Lemma with_value_same (o : Option) : with_value o (value o) = o.
Proof. destruct o; reflexivity. Qed.

Lemma dict_update_keys (d : dict) (k : string) (f : Option -> Option) :
  dict_keys (dict_update d k f) = dict_keys d.
Proof.
  unfold dict_keys.
  induction d as [|[k' o] d IH]; simpl; [reflexivity|].
  destruct (String.eqb k' k); simpl; [reflexivity|].
  now rewrite IH.
Qed.

Lemma dict_get_update (d : dict) (k k' : string) (f : Option -> Option) :
  dict_get (dict_update d k f) k' =
  if String.eqb k k' then option_map f (dict_get d k') else dict_get d k'.
Proof.
  induction d as [|[k0 o] d IH]; simpl.
  - now destruct (String.eqb k k').
  - destruct (String.eqb k0 k) eqn:E0; simpl.
    + apply String.eqb_eq in E0; subst k0.
      destruct (String.eqb k k'); reflexivity.
    + destruct (String.eqb k0 k') eqn:E1; [|exact IH].
      apply String.eqb_eq in E1; subst k0. now rewrite String.eqb_sym, E0.
Qed.

Lemma dict_update_twice (d : dict) (k : string) (f g : Option -> Option) :
  dict_update (dict_update d k f) k g = dict_update d k (fun o => g (f o)).
Proof.
  induction d as [|[k' o] d IH]; simpl; [reflexivity|].
  destruct (String.eqb k' k) eqn:E; simpl; rewrite E; [reflexivity|].
  now rewrite IH.
Qed.

Lemma dict_update_fixed (d : dict) (k : string) (f : Option -> Option) :
  (forall o, dict_get d k = Some o -> f o = o) -> dict_update d k f = d.
Proof.
  induction d as [|[k' o] d IH]; simpl; intros H; [reflexivity|].
  destruct (String.eqb k' k) eqn:E.
  - now rewrite (H o eq_refl).
  - now rewrite (IH H).
Qed.

Lemma dict_get_In (d : dict) (k : string) (o : Option) :
  dict_get d k = Some o -> In (k, o) d.
Proof.
  induction d as [|[k' o'] d IH]; simpl; [discriminate|].
  destruct (String.eqb k' k) eqn:E.
  - apply String.eqb_eq in E. intros [= ->]. left. now subst.
  - intros H. right. now apply IH.
Qed.

Lemma dict_get_None (d : dict) (k : string) :
  dict_get d k = None <-> ~ In k (dict_keys d).
Proof.
  induction d as [|[k' o'] d IH]; simpl.
  - split; [intros _ []|reflexivity].
  - destruct (String.eqb k' k) eqn:E.
    + apply String.eqb_eq in E. split; [discriminate|]. intros H; exfalso; auto.
    + apply String.eqb_neq in E. rewrite IH. unfold dict_keys.
      split; [intros H [H1|H1]; auto|intros H H1; auto].
Qed.

Lemma NoDup_dict_get (d : dict) (k : string) (o : Option) :
  NoDup (dict_keys d) -> In (k, o) d -> dict_get d k = Some o.
Proof.
  induction d as [|[k' o'] d IH]; simpl; [intros _ []|].
  intros Hnd [H|H].
  - injection H as -> ->. now rewrite String.eqb_refl.
  - inversion Hnd as [|? ? Hnotin Hnd']; subst.
    destruct (String.eqb k' k) eqn:E.
    + apply String.eqb_eq in E; subst k'. exfalso. apply Hnotin.
      unfold dict_keys. change k with (fst (k, o)). now apply in_map.
    + now apply IH.
Qed.

Lemma put_value_twice (self : Options) (name_ : string) (v w : pyval) :
  put_value (put_value self name_ v) name_ w = put_value self name_ w.
Proof.
  unfold put_value, assign_value; simpl. f_equal. apply dict_update_twice.
Qed.

Lemma put_value_old (self : Options) (name_ : string) (o : Option) :
  dict_get (_options self) name_ = Some o ->
  put_value self name_ (value o) = self.
Proof.
  intros H. unfold put_value, assign_value; simpl.
  rewrite dict_update_fixed.
  - now destruct self.
  - intros o' H'. rewrite H in H'. injection H' as <-. apply with_value_same.
Qed.

Lemma getitem_put_value (self : Options) (name_ : string) (o : Option)
    (v : pyval) :
  dict_get (_options self) name_ = Some o ->
  getitem name_ (put_value self name_ v) = (put_value self name_ v, Ok v).
Proof.
  intros H. unfold getitem, bind, get_option.
  unfold put_value at 1; simpl. rewrite dict_get_update, String.eqb_refl, H.
  reflexivity.
Qed.

(** ** The coercion chain *)

Lemma string_is_hex_false (s : string) : string_is_hex s = false.
Proof. unfold string_is_hex. now destruct (negb _). Qed.

(** The Integer branch, once the guard on [string_is_hex] is evaluated. *)
Lemma coerce_int (name_ value_ : string) (self : Options) :
  coerce name_ "int" value_ self =
  if isdigit (lower value_) then
    match int_of_str 10 (lower value_) with
    | Some z => (put_value self name_ (PInt z), Ok (PStr (lower value_)))
    | None => (self, Raise ValueError)
    end
  else (self, Raise (TypeError "invalid value type")).
Proof.
  unfold coerce; cbn [String.eqb Ascii.eqb Bool.eqb orb].
  rewrite string_is_hex_false, andb_false_r.
  destruct (isdigit (lower value_)); cbn [negb]; [|reflexivity].
  unfold bind, ret, int_.
  destruct (int_of_str 10 (lower value_)); reflexivity.
Qed.

Lemma coerce_flt (name_ value_ : string) (self : Options) :
  coerce name_ "flt" value_ self =
  if (1 <? count value_ ".") || negb (isdigit (replace value_ "." ""))
  then (self, Raise (TypeError "invalid value type"))
  else match float value_ with
       | Some f => (put_value self name_ (PFloat f), Ok (PStr value_))
       | None => (self, Raise ValueError)
       end.
Proof.
  unfold coerce; cbn [String.eqb Ascii.eqb Bool.eqb orb].
  destruct (1 <? count value_ "."); cbn [orb]; [reflexivity|].
  destruct (isdigit (replace value_ "." "")); cbn [negb]; [|reflexivity].
  unfold bind, float_. destruct (float value_); reflexivity.
Qed.

Lemma coerce_bool (name_ value_ : string) (self : Options) :
  coerce name_ "bool" value_ self =
  if existsb (String.eqb (lower value_)) ["true"; "1"; "on"]
  then (put_value self name_ (PBool true), Ok (PStr value_))
  else if existsb (String.eqb (lower value_)) ["false"; "0"; "off"]
  then (put_value self name_ (PBool false), Ok (PStr value_))
  else (self, Raise (TypeError "invalid value type")).
Proof.
  unfold coerce. cbn [String.eqb Ascii.eqb Bool.eqb orb].
  destruct (existsb _ ["true"; "1"; "on"]); [reflexivity|].
  destruct (existsb _ ["false"; "0"; "off"]); reflexivity.
Qed.

Lemma coerce_str (name_ type_ value_ : string) (self : Options) :
  String.eqb type_ "str" || String.eqb type_ "rfile" = true ->
  coerce name_ type_ value_ self =
  (put_value self name_ (PStr value_), Ok (PStr value_)).
Proof. intros H. unfold coerce. rewrite H. reflexivity. Qed.

Lemma coerce_unknown (name_ type_ value_ : string) (self : Options) :
  ~ In type_ ["str"; "rfile"; "int"; "flt"; "bool"] ->
  coerce name_ type_ value_ self = (self, Raise (Exception "unknown value type")).
Proof.
  clear_platform.
  intros H. unfold coerce.
  repeat match goal with
  | |- context [String.eqb type_ ?t] =>
      destruct (String.eqb_spec type_ t);
      [exfalso; apply H; subst; simpl; tauto|]
  end.
  reflexivity.
Qed.

(** Either the chain raises and the registry is as before, or it has
    assigned a value that is not [None]. *)
Lemma coerce_cases (name_ type_ value_ : string) (self : Options) :
  (exists e, coerce name_ type_ value_ self = (self, Raise e))
  \/ (exists stored arg,
        stored <> PNone
        /\ coerce name_ type_ value_ self
           = (put_value self name_ stored, Ok arg)).
Proof.
  clear_platform.
  destruct (String.eqb type_ "str" || String.eqb type_ "rfile") eqn:Es.
  { right. exists (PStr value_), (PStr value_).
    split; [discriminate|now apply coerce_str]. }
  apply orb_false_elim in Es as [Es Er].
  apply String.eqb_neq in Es, Er.
  destruct (String.eqb_spec type_ "int") as [->|Ei].
  { rewrite coerce_int. destruct (isdigit _); [|left; eauto].
    destruct (int_of_str _ _) as [z|]; [|left; eauto].
    right. exists (PInt z). eexists. split; [discriminate|reflexivity]. }
  destruct (String.eqb_spec type_ "flt") as [->|Ef].
  { rewrite coerce_flt. destruct (_ || _); [left; eauto|].
    destruct (float _) as [f|]; [|left; eauto].
    right. exists (PFloat f). eexists. split; [discriminate|reflexivity]. }
  destruct (String.eqb_spec type_ "bool") as [->|Eb].
  { rewrite coerce_bool. destruct (existsb _ _).
    - right. exists (PBool true). eexists. split; [discriminate|reflexivity].
    - destruct (existsb _ _); [|left; eauto].
      right. exists (PBool false). eexists. split; [discriminate|reflexivity]. }
  left. eexists. apply coerce_unknown. simpl. intuition congruence.
Qed.

(** ** [set_option], case by case *)

Lemma set_option_unknown (name_ value_ : string) (self : Options) :
  dict_get (_options self) name_ = None ->
  set_option name_ value_ self = (self, Raise (KeyError name_)).
Proof.
  intros H. unfold set_option, bind, get_option. now rewrite H.
Qed.

Lemma set_option_raise (name_ value_ : string) (self : Options) (o : Option)
    (e : exn) :
  dict_get (_options self) name_ = Some o ->
  coerce name_ (type o) value_ self = (self, Raise e) ->
  set_option name_ value_ self = (self, Raise e).
Proof.
  intros H Hc. unfold set_option, bind at 1, get_option. rewrite H.
  unfold bind at 1. now rewrite Hc.
Qed.

Lemma set_option_ok (name_ value_ : string) (self : Options) (o : Option)
    (stored arg : pyval) :
  dict_get (_options self) name_ = Some o ->
  coerce name_ (type o) value_ self = (put_value self name_ stored, Ok arg) ->
  set_option name_ value_ self
  = (put_value self name_ (settled o stored arg), Ok (value o)).
Proof.
  intros H Hc. unfold set_option, bind at 1, get_option. rewrite H.
  unfold bind at 1. rewrite Hc. unfold settled, bind.
  destruct (callback o) as [cb|]; [|reflexivity].
  destruct (cb arg (value o)); cbn [negb]; [reflexivity|].
  change (assign_value name_ (value o) (put_value self name_ stored))
    with (put_value (put_value self name_ stored) name_ (value o), Ok tt).
  now rewrite put_value_twice.
Qed.

Lemma set_option_cases (name_ value_ : string) (self : Options) (o : Option) :
  dict_get (_options self) name_ = Some o ->
  (exists e, coerce name_ (type o) value_ self = (self, Raise e)
             /\ set_option name_ value_ self = (self, Raise e))
  \/ (exists stored arg,
        stored <> PNone
        /\ coerce name_ (type o) value_ self
           = (put_value self name_ stored, Ok arg)
        /\ set_option name_ value_ self
           = (put_value self name_ (settled o stored arg), Ok (value o))).
Proof.
  intros H.
  destruct (coerce_cases name_ (type o) value_ self)
    as [[e He]|(stored & arg & Hs & Hc)].
  - left. exists e. split; [exact He|]. now apply set_option_raise with o.
  - right. exists stored, arg. repeat split; trivial.
    now apply set_option_ok.
Qed.

(** ** Hexadecimal input *)

(** C1: after declaring the Integer option PORT without a default,
    set_option("PORT", "0x1F90") should store 8080.  Evaluated on the code:
    [string_is_hex] answers False for every string, so the call raises
    TypeError('invalid value type') and PORT keeps the value None. *)
Theorem C1_hex_input_is_rejected (dirs : Directories) :
  let self := run dirs [Add_integer "PORT" "port" true PNone] in
  string_is_hex "1f90" = false
  /\ set_option "PORT" "0x1F90" self
     = (self, Raise (TypeError "invalid value type"))
  /\ getitem "PORT" self = (self, Ok PNone).
Proof. repeat split. Qed.

(** ** The callback *)

(** C2: the callback should receive the coerced, typed value.  Evaluated on
    the code: for a Boolean option and the input "true" the callback is
    applied to the text "true", and for an Integer option and the input
    "42" to the text "42"; the typed values True and 42 only reach
    [option.value]. *)
Theorem C2_callback_is_given_the_text (dirs : Directories)
    (cb : pyval -> pyval -> bool) :
  let self := run dirs [Add_boolean "VERBOSE" "chatty" true PNone;
                        Add_integer "PORT" "port" true PNone;
                        Set_callback "VERBOSE" cb;
                        Set_callback "PORT" cb] in
  set_option "VERBOSE" "true" self
  = (put_value self "VERBOSE"
       (if cb (PStr "true") PNone then PBool true else PNone), Ok PNone)
  /\ set_option "PORT" "42" self
     = (put_value self "PORT"
          (if cb (PStr "42") PNone then PInt 42 else PNone), Ok PNone).
Proof.
  intros self. split.
  - rewrite (set_option_ok "VERBOSE" "true" self
               (with_callback (Option_init "VERBOSE" "bool" "chatty" true
                                 PNone None) (Some cb))
               (PBool true) (PStr "true")); reflexivity.
  - rewrite (set_option_ok "PORT" "42" self
               (with_callback (Option_init "PORT" "int" "port" true
                                 PNone None) (Some cb))
               (PInt 42) (PStr "42")); reflexivity.
Qed.

Lemma existsb_eqb_In (x : string) (l : list string) :
  existsb (String.eqb x) l = true <-> In x l.
Proof.
  rewrite existsb_exists. split.
  - intros (y & Hy & E). apply String.eqb_eq in E. now subst.
  - intros H. exists x. split; [exact H|apply String.eqb_refl].
Qed.

(** A chain that ends without raising has assigned the typed value of the
    text. *)
Lemma coerce_success (name_ type_ value_ : string) (self : Options)
    (arg : pyval) :
  snd (coerce name_ type_ value_ self) = Ok arg ->
  exists stored,
    coerced_value type_ value_ stored
    /\ coerce name_ type_ value_ self = (put_value self name_ stored, Ok arg).
Proof.
  clear os_path_sep.
  destruct (String.eqb type_ "str" || String.eqb type_ "rfile") eqn:Es.
  { rewrite (coerce_str name_ type_ value_ self Es). intros [= <-].
    exists (PStr value_). split; [|reflexivity].
    apply orb_true_iff in Es as [Es|Es]; apply String.eqb_eq in Es;
      cbn; tauto. }
  apply orb_false_elim in Es as [Es Er].
  apply String.eqb_neq in Es, Er.
  destruct (String.eqb_spec type_ "int") as [->|Ei].
  { rewrite coerce_int. destruct (isdigit (lower value_)) eqn:Ed;
      [|discriminate].
    destruct (int_of_str 10 (lower value_)) as [z|] eqn:Ez; [|discriminate].
    intros [= <-]. exists (PInt z). cbn. tauto. }
  destruct (String.eqb_spec type_ "flt") as [->|Ef].
  { rewrite coerce_flt.
    destruct (1 <? count value_ ".") eqn:E1; [discriminate|].
    destruct (isdigit (replace value_ "." "")) eqn:E2; [|discriminate].
    cbn [negb orb].
    destruct (float value_) as [f|] eqn:E3; [|discriminate].
    intros [= <-]. exists (PFloat f). cbn [coerced_value]. tauto. }
  destruct (String.eqb_spec type_ "bool") as [->|Eb].
  { rewrite coerce_bool.
    destruct (existsb (String.eqb (lower value_)) ["true"; "1"; "on"]) eqn:Et.
    - intros [= <-]. exists (PBool true). apply existsb_eqb_In in Et.
      cbn [coerced_value]. tauto.
    - destruct (existsb (String.eqb (lower value_)) ["false"; "0"; "off"])
        eqn:Efa; [|discriminate].
      intros [= <-]. exists (PBool false). apply existsb_eqb_In in Efa.
      cbn [coerced_value]. tauto. }
  rewrite coerce_unknown; [discriminate|]. simpl. intuition congruence.
Qed.

(** C3: for an option with a callback, when the coercion of the text
    succeeds, set_option returns the value held before the call; if the
    callback answers false the registry is exactly as before the call, so
    the lookup yields the old value, and if it answers true the lookup
    yields the typed value of the text. *)
Theorem C3_callback_vetoes_or_commits (self : Options)
    (name_ value_ : string) (o : Option) (cb : pyval -> pyval -> bool)
    (arg : pyval) :
  dict_get (_options self) name_ = Some o ->
  callback o = Some cb ->
  snd (coerce name_ (type o) value_ self) = Ok arg ->
  exists stored,
    coerced_value (type o) value_ stored
    /\ snd (set_option name_ value_ self) = Ok (value o)
    /\ getitem name_ (fst (set_option name_ value_ self))
       = (fst (set_option name_ value_ self),
          Ok (if cb arg (value o) then stored else value o))
    /\ (cb arg (value o) = false ->
        fst (set_option name_ value_ self) = self).
Proof.
  intros Hget Hcb Hco.
  destruct (coerce_success name_ (type o) value_ self arg Hco)
    as (stored & Hv & Hc).
  exists stored. split; [exact Hv|].
  rewrite (set_option_ok name_ value_ self o stored arg Hget Hc).
  unfold settled. rewrite Hcb. cbn [fst snd].
  split; [reflexivity|].
  split; [now apply getitem_put_value with o|].
  intros Hf. rewrite Hf. now apply put_value_old.
Qed.

(** ** Failed calls *)

(** C4: when set_option raises, whatever the exception, the registry, and
    with it the value of the option, is as before the call. *)
Theorem C4_failed_set_leaves_value (self : Options) (name_ value_ : string)
    (e : exn) :
  snd (set_option name_ value_ self) = Raise e ->
  fst (set_option name_ value_ self) = self
  /\ getitem name_ (fst (set_option name_ value_ self)) = getitem name_ self.
Proof.
  intros H.
  assert (Hs : fst (set_option name_ value_ self) = self).
  { destruct (dict_get (_options self) name_) as [o|] eqn:Hget.
    - destruct (set_option_cases name_ value_ self o Hget)
        as [(e' & _ & He)|(stored & arg & _ & _ & Hs)].
      + now rewrite He.
      + rewrite Hs in H. discriminate.
    - now rewrite set_option_unknown. }
  split; [exact Hs|now rewrite Hs].
Qed.

(** ** Integer text *)

(** An int from 0 up to the limit on digits has a decimal text, and the
    text reads back as the int. *)
Lemma str_nonneg (n : Z) :
  0 <= n < 10 ^ int_max_str_digits ->
  exists s,
    str n = Some s
    /\ lower s = s
    /\ isdigit s = true
    /\ int_of_str 10 s = Some n.
Proof.
  intros Hn.
  pose proof (str_N_within_limit n int_max_str_digits
                int_max_str_digits_pos Hn) as Hlen.
  destruct (str_N_spec (Z.abs_N n)) as (Hne & Hall & Hv).
  assert (Hlim : (int_max_str_digits <? Z.of_nat (length (str_N (Z.abs_N n))))
                 = false) by (apply Z.ltb_ge; exact Hlen).
  exists (str_N (Z.abs_N n)). unfold str.
  rewrite Hlim.
  replace (n <? 0) with false by (symmetry; apply Z.ltb_ge; lia).
  repeat split.
  - now apply all_decimal_lower.
  - now apply all_decimal_isdigit.
  - unfold int_of_str. destruct (str_N (Z.abs_N n)) as [|c t] eqn:E;
      [congruence|].
    rewrite Hlim, andb_false_r, Hv. f_equal.
    rewrite N2Z.inj_abs_N. lia.
Qed.

(** C5, amended: for an Integer option whose callback, if it has one, does
    not veto, and for every integer n from 0 up to the limit on digits (n
    below 10 to the power 4300), str(n) is defined, and
    set_option(name, str(n)) returns the previous value and a value lookup
    then yields n. *)
Theorem C5_decimal_round_trip (self : Options) (name_ : string) (o : Option)
    (n : Z) :
  dict_get (_options self) name_ = Some o ->
  type o = "int" ->
  0 <= n < 10 ^ int_max_str_digits ->
  exists s,
    str n = Some s
    /\ ((forall cb, callback o = Some cb ->
                    cb (PStr s) (value o) = true) ->
        snd (set_option name_ s self) = Ok (value o)
        /\ getitem name_ (fst (set_option name_ s self))
           = (fst (set_option name_ s self), Ok (PInt n))).
Proof.
  intros Hget Hty Hn.
  destruct (str_nonneg n Hn) as (s & Hs & Hl & Hd & Hv).
  exists s. split; [exact Hs|]. intros Hcb.
  assert (Hc : coerce name_ (type o) s self
               = (put_value self name_ (PInt n), Ok (PStr s))).
  { rewrite Hty, coerce_int, Hl, Hd, Hv. reflexivity. }
  rewrite (set_option_ok name_ s self o _ _ Hget Hc).
  assert (Hst : settled o (PInt n) (PStr s) = PInt n).
  { unfold settled. destruct (callback o) as [cb|] eqn:E; [|reflexivity].
    now rewrite (Hcb cb eq_refl). }
  rewrite Hst. cbn [fst snd]. split; [reflexivity|].
  now apply getitem_put_value with o.
Qed.

(** ** Boolean text *)

(** C7, amended: for a Boolean option whose callback, if it has one, does
    not veto, set_option stores True, so that the lookup yields True, when
    the lowercased input is one of "true", "1", "on", and stores False
    when it is one of "false", "0", "off"; for every other input, "yes"
    and "no" among them, it raises TypeError('invalid value type') and
    leaves the registry as it was, whatever the callback. *)
Theorem C7_boolean_literals (self : Options) (name_ value_ : string)
    (o : Option) :
  dict_get (_options self) name_ = Some o ->
  type o = "bool" ->
  ((forall cb, callback o = Some cb -> cb (PStr value_) (value o) = true) ->
   In (lower value_) ["true"; "1"; "on"] ->
   snd (set_option name_ value_ self) = Ok (value o)
   /\ getitem name_ (fst (set_option name_ value_ self))
      = (fst (set_option name_ value_ self), Ok (PBool true)))
  /\ ((forall cb, callback o = Some cb ->
                  cb (PStr value_) (value o) = true) ->
      In (lower value_) ["false"; "0"; "off"] ->
      snd (set_option name_ value_ self) = Ok (value o)
      /\ getitem name_ (fst (set_option name_ value_ self))
         = (fst (set_option name_ value_ self), Ok (PBool false)))
  /\ (~ In (lower value_) ["true"; "1"; "on"; "false"; "0"; "off"] ->
      set_option name_ value_ self
      = (self, Raise (TypeError "invalid value type"))).
Proof.
  intros Hget Hty.
  pose proof (coerce_bool name_ value_ self) as Hc. rewrite <- Hty in Hc.
  assert (Hs : (forall cb, callback o = Some cb ->
                           cb (PStr value_) (value o) = true) ->
               forall b, settled o (PBool b) (PStr value_) = PBool b).
  { intros Hcb b. unfold settled.
    destruct (callback o) as [cb|] eqn:E; [|reflexivity].
    now rewrite (Hcb cb eq_refl). }
  split; [|split].
  - intros Hcb Hin. apply existsb_eqb_In in Hin. rewrite Hin in Hc.
    rewrite (set_option_ok name_ value_ self o _ _ Hget Hc), (Hs Hcb).
    cbn [fst snd]. split; [reflexivity|].
    now apply getitem_put_value with o.
  - intros Hcb Hin.
    assert (Hno : existsb (String.eqb (lower value_)) ["true"; "1"; "on"]
                  = false).
    { apply not_true_is_false. rewrite existsb_eqb_In. intros Ht.
      simpl in Hin, Ht.
      destruct Hin as [E|[E|[E|[]]]]; rewrite <- E in Ht;
        destruct Ht as [E'|[E'|[E'|[]]]]; discriminate. }
    apply existsb_eqb_In in Hin. rewrite Hno, Hin in Hc.
    rewrite (set_option_ok name_ value_ self o _ _ Hget Hc), (Hs Hcb).
    cbn [fst snd]. split; [reflexivity|].
    now apply getitem_put_value with o.
  - intros Hnot.
    assert (Ht : existsb (String.eqb (lower value_)) ["true"; "1"; "on"]
                 = false).
    { apply not_true_is_false. rewrite existsb_eqb_In. intros Ht.
      apply Hnot. simpl in *. tauto. }
    assert (Hf : existsb (String.eqb (lower value_)) ["false"; "0"; "off"]
                 = false).
    { apply not_true_is_false. rewrite existsb_eqb_In. intros Hf.
      apply Hnot. simpl in *. tauto. }
    rewrite Ht, Hf in Hc. now apply set_option_raise with o.
Qed.

(** ** What a call does to the dict *)

Lemma dict_set_keys (d : dict) (k : string) (o : Option) :
  dict_keys (dict_set d k o) =
  if existsb (String.eqb k) (dict_keys d) then dict_keys d
  else (dict_keys d ++ [k])%list.
Proof.
  unfold dict_keys.
  induction d as [|[k' o'] d IH]; simpl; [reflexivity|].
  rewrite (String.eqb_sym k k').
  destruct (String.eqb k' k); simpl; [reflexivity|].
  rewrite IH. now destruct (existsb _ _).
Qed.

Lemma dict_get_set (d : dict) (k k' : string) (o : Option) :
  dict_get (dict_set d k o) k' =
  if String.eqb k k' then Some o else dict_get d k'.
Proof.
  induction d as [|[k0 o0] d IH]; simpl.
  - reflexivity.
  - destruct (String.eqb k0 k) eqn:E0; simpl.
    + apply String.eqb_eq in E0; subst k0. now destruct (String.eqb k k').
    + destruct (String.eqb k0 k') eqn:E1; [|exact IH].
      apply String.eqb_eq in E1; subst k0. now rewrite String.eqb_sym, E0.
Qed.

Lemma set_option_state (name_ value_ : string) (self : Options) :
  fst (set_option name_ value_ self) = self
  \/ exists v, fst (set_option name_ value_ self) = put_value self name_ v.
Proof.
  destruct (dict_get (_options self) name_) as [o|] eqn:Hget.
  - destruct (set_option_cases name_ value_ self o Hget)
      as [(e & _ & He)|(stored & arg & _ & _ & Hs)].
    + left. now rewrite He.
    + right. eexists. now rewrite Hs.
  - left. now rewrite set_option_unknown.
Qed.

Lemma set_callback_state (name_ : string) (cb : pyval -> pyval -> bool)
    (self : Options) :
  set_callback name_ cb self =
  match dict_get (_options self) name_ with
  | Some _ => ({| directories := directories self;
                  _options := dict_update (_options self) name_
                                (fun o => with_callback o (Some cb)) |}, Ok tt)
  | None => (self, Raise (KeyError name_))
  end.
Proof.
  unfold set_callback, bind, get_option.
  now destruct (dict_get (_options self) name_).
Qed.

Lemma perform_effect (self : Options) (c : call) : effect self (perform self c).
Proof.
  destruct c as [n h r d|n h r d|n h r d|n h r d|n h r d|n cb|n v];
    cbn [perform];
    try (apply effect_store; reflexivity).
  - rewrite set_callback_state.
    destruct (dict_get (_options self) n); [|apply effect_none].
    apply (effect_write self n (fun o => with_callback o (Some cb))).
    reflexivity.
  - destruct (set_option_state n v self) as [->|[x ->]]; [apply effect_none|].
    apply (effect_write self n (fun o => with_value o x)). reflexivity.
Qed.

Lemma perform_keys (self : Options) (c : call) :
  dict_keys (_options (perform self c)) =
  fold_left
    (fun acc n => if existsb (String.eqb n) acc then acc else (acc ++ [n])%list)
    (declared [c]) (dict_keys (_options self)).
Proof.
  destruct c as [n h r d|n h r d|n h r d|n h r d|n h r d|n cb|n v];
    cbn [perform declared fold_left];
    try (apply dict_set_keys).
  - rewrite set_callback_state.
    destruct (dict_get (_options self) n); [|reflexivity].
    apply dict_update_keys.
  - destruct (set_option_state n v self) as [->|[x ->]]; [reflexivity|].
    apply dict_update_keys.
Qed.

Lemma fold_perform_keys (history : list call) :
  forall self,
  dict_keys (_options (fold_left perform history self)) =
  fold_left
    (fun acc n => if existsb (String.eqb n) acc then acc else (acc ++ [n])%list)
    (declared history) (dict_keys (_options self)).
Proof.
  induction history as [|c history IH]; intros self; [reflexivity|].
  cbn [fold_left]. rewrite IH, perform_keys.
  destruct c; reflexivity.
Qed.

(** The keys of a registry are the declared names, each at the place of
    its first declaration. *)
Lemma run_keys (dirs : Directories) (history : list call) :
  dict_keys (_options (run dirs history)) = first_occurrences (declared history).
Proof. unfold run. now rewrite fold_perform_keys. Qed.

Lemma first_occurrences_incl (l : list string) :
  forall acc n,
  In n (fold_left
          (fun acc n => if existsb (String.eqb n) acc then acc
                        else (acc ++ [n])%list) l acc) ->
  In n acc \/ In n l.
Proof.
  clear_platform.
  induction l as [|m l IH]; intros acc n; cbn [fold_left]; [tauto|].
  intros H. apply IH in H as [H|H]; [|right; now right].
  destruct (existsb _ acc); [now left|].
  apply in_app_or in H as [H|[<-|[]]]; [now left|right; now left].
Qed.

Lemma effect_well_formed (self self' : Options) :
  effect self self' -> well_formed self -> well_formed self'.
Proof.
  intros [|k o Hk|k f Hf] [Hnd Hall]; [now split|split|split]; cbn [_options].
  - rewrite dict_set_keys.
    destruct (existsb _ _) eqn:E; [exact Hnd|].
    apply NoDup_app; [exact Hnd|repeat constructor; intros []|].
    intros x Hx [<-|[]].
    apply not_true_iff_false in E. apply E. now apply existsb_eqb_In.
  - clear Hnd. induction Hall as [|[k' o'] d Hx Hd IH]; simpl.
    + repeat constructor. exact Hk.
    + destruct (String.eqb_spec k' k) as [E|E]; constructor; auto.
      cbn [fst snd]. congruence.
  - now rewrite dict_update_keys.
  - clear Hnd. induction Hall as [|[k' o'] d Hx Hd IH]; simpl.
    + constructor.
    + destruct (String.eqb k' k); constructor; auto.
      cbn [fst snd] in *. now rewrite Hf.
Qed.

Lemma run_well_formed (dirs : Directories) (history : list call) :
  well_formed (run dirs history).
Proof.
  unfold run.
  assert (H : well_formed (Options_init dirs)).
  { split; constructor. }
  revert H. generalize (Options_init dirs).
  induction history as [|c history IH]; intros self H; [exact H|].
  cbn [fold_left]. apply IH.
  apply effect_well_formed with self; [apply perform_effect|exact H].
Qed.

Lemma run_snoc (dirs : Directories) (history : list call) (c : call) :
  run dirs (history ++ [c]) = perform (run dirs history) c.
Proof. unfold run. now rewrite fold_left_app. Qed.

(** ** Unknown names *)

Lemma unknown_name_raises (self : Options) (name_ value_ : string)
    (cb : pyval -> pyval -> bool) :
  ~ In name_ (dict_keys (_options self)) ->
  set_option name_ value_ self = (self, Raise (KeyError name_))
  /\ getitem name_ self = (self, Raise (KeyError name_))
  /\ get_option name_ self = (self, Raise (KeyError name_))
  /\ set_callback name_ cb self = (self, Raise (KeyError name_)).
Proof.
  intros H. apply dict_get_None in H.
  repeat split.
  - now apply set_option_unknown.
  - unfold getitem, bind, get_option. now rewrite H.
  - unfold get_option. now rewrite H.
  - rewrite set_callback_state. now rewrite H.
Qed.

(** C9: on a registry built by any history of calls, for a name that no
    call of the history declared, set_option, the value lookup, get_option
    and set_callback each raise KeyError for that name and leave the
    registry as it was. *)
Theorem C9_undeclared_name_raises (dirs : Directories) (history : list call)
    (name_ value_ : string) (cb : pyval -> pyval -> bool) :
  ~ In name_ (declared history) ->
  let self := run dirs history in
  set_option name_ value_ self = (self, Raise (KeyError name_))
  /\ getitem name_ self = (self, Raise (KeyError name_))
  /\ get_option name_ self = (self, Raise (KeyError name_))
  /\ set_callback name_ cb self = (self, Raise (KeyError name_)).
Proof.
  intros H self. apply unknown_name_raises.
  unfold self. rewrite run_keys. unfold first_occurrences.
  intros Hin. apply first_occurrences_incl in Hin as [[]|Hin]. now apply H.
Qed.

(** ** The frame of [set_option] *)

Lemma entry_frame_refl (name_ : string) (d : dict) :
  Forall2 (entry_frame name_) d d.
Proof.
  clear_platform.
  induction d as [|e d IH]; constructor; [|exact IH].
  unfold entry_frame, same_but_value. tauto.
Qed.

Lemma entry_frame_update (name_ : string) (v : pyval) (d : dict) :
  Forall2 (entry_frame name_) d
    (dict_update d name_ (fun o => with_value o v)).
Proof.
  clear_platform.
  induction d as [|[k o] d IH]; simpl; [constructor|].
  destruct (String.eqb_spec k name_) as [E|E]; constructor.
  - unfold entry_frame, same_but_value; cbn. tauto.
  - apply entry_frame_refl.
  - unfold entry_frame, same_but_value; cbn. tauto.
  - exact IH.
Qed.

(** C10: whatever its outcome, a set_option call leaves [directories], the
    keys of the dict and their order as they were; entry by entry, the
    name, type, help, required, default and callback fields are unchanged,
    and an entry under another key than the one named is unchanged
    altogether. *)
Theorem C10_set_option_frame (self : Options) (name_ value_ : string) :
  let self' := fst (set_option name_ value_ self) in
  directories self' = directories self
  /\ dict_keys (_options self') = dict_keys (_options self)
  /\ Forall2 (entry_frame name_) (_options self) (_options self').
Proof.
  intros self'. unfold self'.
  destruct (set_option_state name_ value_ self) as [->|[v ->]].
  - repeat split. apply entry_frame_refl.
  - repeat split.
    + apply dict_update_keys.
    + apply entry_frame_update.
Qed.

(** ** Missing options *)

Lemma is_missing_iff (self : Options) (n : string) :
  is_missing self n = true <->
  exists o, get_option n self = (self, Ok o)
            /\ required o = true /\ value o = PNone.
Proof.
  unfold is_missing, get_option.
  destruct (dict_get (_options self) n) as [o|]; split.
  - intros H. apply andb_true_iff in H as [Hr Hv].
    exists o. repeat split; trivial. now destruct (value o).
  - intros (o' & [= <-] & Hr & Hv). now rewrite Hr, Hv.
  - discriminate.
  - intros (o' & H & _). discriminate.
Qed.

Lemma missing_filter (self : Options) (d : dict) :
  (forall k o, In (k, o) d ->
               name o = k /\ dict_get (_options self) k = Some o) ->
  map name
    (List.filter (fun option => required option && is_None (value option))
       (dict_values d))
  = List.filter (is_missing self) (dict_keys d).
Proof.
  unfold dict_values, dict_keys.
  induction d as [|[k o] d IH]; intros H; [reflexivity|].
  cbn [map List.filter fst snd].
  destruct (H k o (or_introl eq_refl)) as [Hn Hg].
  unfold is_missing at 1. rewrite Hg.
  specialize (IH (fun k' o' Hin => H k' o' (or_intror Hin))).
  destruct (required o && is_None (value o)); cbn [map]; congruence.
Qed.

Lemma get_missing_options_filter (self : Options) :
  well_formed self ->
  get_missing_options self
  = (self, Ok (List.filter (is_missing self) (dict_keys (_options self)))).
Proof.
  intros [Hnd Hall]. unfold get_missing_options. do 2 f_equal.
  apply missing_filter. intros k o Hin. split.
  - rewrite Forall_forall in Hall. exact (Hall (k, o) Hin).
  - now apply NoDup_dict_get.
Qed.

Lemma is_None_rfile_default (dirs : Directories) (d : pyval) :
  is_None (rfile_default dirs d) = is_None d.
Proof. now destruct d. Qed.

Lemma is_missing_declared (self : Options) (c : call) (n : string)
    (r : bool) (d : pyval) :
  declaration_of c = Some (n, r, d) ->
  is_missing (perform self c) n = r && is_None d.
Proof.
  destruct c as [m h q x|m h q x|m h q x|m h q x|m h q x|m cb|m v];
    intros [= <- <- <-]; unfold is_missing; cbn;
    rewrite dict_get_set, String.eqb_refl; cbn; trivial.
  now rewrite is_None_rfile_default.
Qed.

Lemma still_missing_unchanged (self : Options) (n v : string) :
  is_missing (perform self (Set_option n v)) n = true ->
  perform self (Set_option n v) = self.
Proof.
  cbn [perform].
  destruct (dict_get (_options self) n) as [o|] eqn:Hget.
  - destruct (set_option_cases n v self o Hget)
      as [(e & _ & He)|(stored & arg & Hs & _ & Hset)].
    + now rewrite He.
    + rewrite Hset. cbn [fst]. unfold is_missing, put_value, assign_value.
      cbn [fst _options]. rewrite dict_get_update, String.eqb_refl, Hget.
      cbn [option_map with_value required value].
      intros H. apply andb_true_iff in H as [_ H].
      unfold settled in *. destruct (callback o) as [cb|].
      * destruct (cb arg (value o)).
        -- destruct stored; try discriminate. congruence.
        -- fold (assign_value n (value o) self).
           change (fst (assign_value n (value o) self))
             with (put_value self n (value o)).
           now apply put_value_old.
      * destruct stored; try discriminate. congruence.
  - now rewrite set_option_unknown.
Qed.

(** C6: on the registry a history of calls has built, get_missing_options
    returns the declared names, in the order of their first declaration
    and each once, whose option is required and holds None.  A name just
    declared is among them exactly when it was declared required and with
    the default None, and a name that is still among them after a
    set_option call for it was left untouched by that call (the call
    raised or was vetoed). *)
Theorem C6_missing_options (dirs : Directories) (history : list call) :
  let self := run dirs history in
  let missing :=
    List.filter (is_missing self) (first_occurrences (declared history)) in
  get_missing_options self = (self, Ok missing)
  /\ (forall n, In n missing <->
                exists o, get_option n self = (self, Ok o)
                          /\ required o = true /\ value o = PNone)
  /\ NoDup missing
  /\ (forall c n r d,
        declaration_of c = Some (n, r, d) ->
        (is_missing (run dirs (history ++ [c])) n = true
         <-> r = true /\ d = PNone))
  /\ (forall n v,
        is_missing (run dirs (history ++ [Set_option n v])) n = true ->
        run dirs (history ++ [Set_option n v]) = self).
Proof.
  intros self missing.
  pose proof (run_well_formed dirs history) as Hwf.
  pose proof (run_keys dirs history) as Hkeys.
  fold self in Hwf, Hkeys. unfold missing. rewrite <- Hkeys.
  split; [now apply get_missing_options_filter|].
  split; [|split; [|split]].
  - intros n. rewrite filter_In, <- is_missing_iff. split; [tauto|].
    intros H. split; [|exact H].
    unfold is_missing in H.
    destruct (dict_get (_options self) n) as [o|] eqn:E; [|discriminate].
    apply dict_get_In in E. change n with (fst (n, o)). now apply in_map.
  - apply NoDup_filter. apply Hwf.
  - intros c n r d Hc. rewrite run_snoc, (is_missing_declared _ c n r d Hc).
    rewrite andb_true_iff. destruct d; cbn; intuition congruence.
  - intros n v. rewrite run_snoc. apply still_missing_unchanged.
Qed.

(** ** Declarations *)

Lemma getitem_after_store (self : Options) (name_ : string) (o : Option) :
  getitem name_ (fst (store_option name_ o self))
  = (fst (store_option name_ o self), Ok (value o)).
Proof.
  unfold getitem, bind, get_option. cbn [store_option fst _options].
  now rewrite dict_get_set, String.eqb_refl.
Qed.

(** * Further properties of the registry *)

(** ** The outcome of the coercion chain does not depend on the registry *)

Lemma coerce_uniform (name_ type_ value_ : string) :
  (exists e, forall self, coerce name_ type_ value_ self = (self, Raise e))
  \/ (exists stored arg,
        stored <> PNone
        /\ native type_ stored = true
        /\ forall self, coerce name_ type_ value_ self
                        = (put_value self name_ stored, Ok arg)).
Proof.
  clear os_path_sep.
  destruct (String.eqb type_ "str" || String.eqb type_ "rfile") eqn:Es.
  { right. exists (PStr value_), (PStr value_).
    repeat split; [discriminate|exact Es|].
    intros self. now apply coerce_str. }
  pose proof Es as Es'.
  apply orb_false_elim in Es as [Es Er].
  apply String.eqb_neq in Es, Er.
  destruct (String.eqb_spec type_ "int") as [->|Ei].
  { destruct (isdigit (lower value_)) eqn:Ed.
    - destruct (int_of_str 10 (lower value_)) as [z|] eqn:Ez.
      + right. exists (PInt z), (PStr (lower value_)).
        repeat split; [discriminate|].
        intros self. now rewrite coerce_int, Ed, Ez.
      + left. exists ValueError. intros self. now rewrite coerce_int, Ed, Ez.
    - left. eexists. intros self. now rewrite coerce_int, Ed. }
  destruct (String.eqb_spec type_ "flt") as [->|Ef].
  { destruct ((1 <? count value_ ".")
              || negb (isdigit (replace value_ "." ""))) eqn:Eg.
    - left. eexists. intros self. now rewrite coerce_flt, Eg.
    - destruct (float value_) as [f|] eqn:Efl.
      + right. exists (PFloat f), (PStr value_).
        repeat split; [discriminate|].
        intros self. now rewrite coerce_flt, Eg, Efl.
      + left. exists ValueError. intros self. now rewrite coerce_flt, Eg, Efl. }
  destruct (String.eqb_spec type_ "bool") as [->|Eb].
  { destruct (existsb (String.eqb (lower value_)) ["true"; "1"; "on"]) eqn:Et.
    - right. exists (PBool true), (PStr value_).
      repeat split; [discriminate|].
      intros self. now rewrite coerce_bool, Et.
    - destruct (existsb (String.eqb (lower value_)) ["false"; "0"; "off"])
        eqn:Efa.
      + right. exists (PBool false), (PStr value_).
        repeat split; [discriminate|].
        intros self. now rewrite coerce_bool, Et, Efa.
      + left. eexists. intros self. now rewrite coerce_bool, Et, Efa. }
  left. eexists. intros self. apply coerce_unknown.
  simpl. intuition congruence.
Qed.

Lemma dict_get_put_value (self : Options) (name_ k : string) (v : pyval) :
  dict_get (_options (put_value self name_ v)) k =
  if String.eqb name_ k
  then option_map (fun o => with_value o v) (dict_get (_options self) k)
  else dict_get (_options self) k.
Proof. unfold put_value, assign_value. cbn [fst _options]. apply dict_get_update. Qed.

(** ** Integer options *)

Lemma digit_value_decimal (c : ascii) :
  digit_value 10 c = if is_decimal c then Some (Z.of_N (ord c) - 48) else None.
Proof.
  clear_platform.
  unfold digit_value.
  destruct (is_decimal c) eqn:Ed.
  - apply is_decimal_range in Ed.
    replace (Z.of_N (ord c) - 48 <? 10) with true; [reflexivity|].
    symmetry. apply Z.ltb_lt. lia.
  - destruct ((97 <=? ord c) && (ord c <=? 102))%N eqn:E1.
    + apply andb_true_iff in E1 as [E1 E2]. apply N.leb_le in E1, E2.
      replace (Z.of_N (ord c) - 87 <? 10) with false; [reflexivity|].
      symmetry. apply Z.ltb_ge. lia.
    + destruct ((65 <=? ord c) && (ord c <=? 70))%N eqn:E2.
      * apply andb_true_iff in E2 as [E2 E3]. apply N.leb_le in E2, E3.
        replace (Z.of_N (ord c) - 55 <? 10) with false; [reflexivity|].
        symmetry. apply Z.ltb_ge. lia.
      * now rewrite Z.ltb_irrefl.
Qed.

Lemma digits_value_decimal (s : string) :
  forall acc,
  0 <= acc ->
  if all_chars is_decimal s
  then exists z, digits_value 10 acc s = Some z /\ 0 <= z
  else digits_value 10 acc s = None.
Proof.
  clear_platform.
  induction s as [|c s IH]; intros acc Hacc; cbn [all_chars digits_value].
  - exists acc. now split.
  - rewrite digit_value_decimal.
    destruct (is_decimal c) eqn:Ed; cbn [andb]; [|reflexivity].
    apply is_decimal_range in Ed. apply IH. lia.
Qed.

Lemma is_decimal_char_lower (c : ascii) :
  is_decimal (char_lower c) = is_decimal c.
Proof.
  clear_platform.
  destruct c as [[] [] [] [] [] [] [] []]; reflexivity.
Qed.

Lemma all_decimal_of_lower (s : string) :
  all_chars is_decimal (lower s) = all_chars is_decimal s.
Proof.
  induction s as [|c s IH]; cbn [lower all_chars]; [reflexivity|].
  now rewrite is_decimal_char_lower, IH.
Qed.

(** X1: an Integer option rejects every text whose lowercased form is not
    a digit string, the forms with the prefix 0x among them. *)
Theorem integer_rejects_non_digit_text (self : Options)
    (name_ value_ : string) (o : Option) :
  dict_get (_options self) name_ = Some o ->
  type o = "int" ->
  isdigit (lower value_) = false ->
  set_option name_ value_ self
  = (self, Raise (TypeError "invalid value type")).
Proof.
  intros Hget Hty Hd. apply set_option_raise with o; [exact Hget|].
  now rewrite Hty, coerce_int, Hd.
Qed.

(** X2: an Integer option given a digit string that holds a character
    which is no decimal digit raises ValueError, not TypeError; the
    registry is as before. *)
Theorem integer_non_decimal_digit_is_value_error (self : Options)
    (name_ value_ : string) (o : Option) :
  dict_get (_options self) name_ = Some o ->
  type o = "int" ->
  isdigit (lower value_) = true ->
  all_chars is_decimal value_ = false ->
  set_option name_ value_ self = (self, Raise ValueError).
Proof.
  intros Hget Hty Hd Hall. apply set_option_raise with o; [exact Hget|].
  rewrite Hty, coerce_int, Hd.
  rewrite <- all_decimal_of_lower in Hall.
  pose proof (digits_value_decimal (lower value_) 0 (Z.le_refl 0)) as H.
  rewrite Hall in H. unfold int_of_str.
  destruct (lower value_); [reflexivity|].
  destruct (_ && _); [reflexivity|]. now rewrite H.
Qed.

Lemma coerce_int_outcome (name_ value_ : string) (self : Options) :
  (exists e, coerce name_ "int" value_ self = (self, Raise e))
  \/ (exists z,
        0 <= z
        /\ coerce name_ "int" value_ self
           = (put_value self name_ (PInt z), Ok (PStr (lower value_)))).
Proof.
  rewrite coerce_int.
  destruct (isdigit (lower value_)); [|left; eauto].
  pose proof (digits_value_decimal (lower value_) 0 (Z.le_refl 0)) as H.
  unfold int_of_str.
  destruct (lower value_) as [|c s] eqn:E; [left; eauto|].
  destruct (_ && _); [left; eauto|].
  destruct (all_chars is_decimal (String c s)).
  - destruct H as (z & -> & Hz). right. eauto.
  - rewrite H. left. eauto.
Qed.

(** X3: after a set_option call on an Integer option the option holds the
    value it held before or an int that is not negative. *)
Theorem integer_never_stores_negative (self : Options)
    (name_ value_ : string) (o : Option) :
  dict_get (_options self) name_ = Some o ->
  type o = "int" ->
  exists v,
    getitem name_ (fst (set_option name_ value_ self))
    = (fst (set_option name_ value_ self), Ok v)
    /\ (v = value o \/ exists z, v = PInt z /\ 0 <= z).
Proof.
  intros Hget Hty.
  destruct (coerce_int_outcome name_ value_ self) as [[e He]|(z & Hz & Hc)];
    rewrite <- Hty in *.
  - rewrite (set_option_raise name_ value_ self o e Hget He).
    exists (value o). split; [|now left].
    unfold getitem, bind, get_option. cbn [fst]. now rewrite Hget.
  - rewrite (set_option_ok name_ value_ self o _ _ Hget Hc). cbn [fst].
    eexists. split; [now apply getitem_put_value with o|].
    unfold settled. destruct (callback o) as [cb|]; [|right; eauto].
    destruct (cb _ _); [right; eauto|now left].
Qed.




(** ** String and file options *)

(** X4: a String or ReadableFilePath option takes any text, the empty one
    and one with a placeholder included, as it is: the coercion rejects
    nothing, so with no callback, or with a callback that returns,
    set_option returns the previous value, and unless the callback vetoes,
    the lookup yields the very text given. *)
Theorem text_is_stored_verbatim (self : Options) (name_ value_ : string)
    (o : Option) :
  dict_get (_options self) name_ = Some o ->
  type o = "str" \/ type o = "rfile" ->
  set_option name_ value_ self
  = (put_value self name_ (settled o (PStr value_) (PStr value_)),
     Ok (value o))
  /\ ((forall cb, callback o = Some cb ->
                  cb (PStr value_) (value o) = true) ->
      getitem name_ (fst (set_option name_ value_ self))
      = (fst (set_option name_ value_ self), Ok (PStr value_))).
Proof.
  intros Hget Hty.
  assert (Hc : coerce name_ (type o) value_ self
               = (put_value self name_ (PStr value_), Ok (PStr value_))).
  { apply coerce_str. destruct Hty as [-> | ->]; reflexivity. }
  rewrite (set_option_ok name_ value_ self o _ _ Hget Hc).
  split; [reflexivity|].
  intros Hcb. cbn [fst].
  assert (Hs : settled o (PStr value_) (PStr value_) = PStr value_).
  { unfold settled. destruct (callback o) as [cb|] eqn:E; [|reflexivity].
    now rewrite (Hcb cb eq_refl). }
  rewrite Hs. now apply getitem_put_value with o.
Qed.

(** ** Setting twice *)

(** X5: for an option whose callback, if it has one, never vetoes, a
    set_option call that succeeded can be repeated with the same text: the
    second call returns the value the first one stored and leaves the
    registry as the first one left it. *)
Theorem set_option_twice (self : Options) (name_ value_ : string)
    (o : Option) (old : pyval) :
  dict_get (_options self) name_ = Some o ->
  (forall cb, callback o = Some cb -> forall a b, cb a b = true) ->
  snd (set_option name_ value_ self) = Ok old ->
  exists stored,
    getitem name_ (fst (set_option name_ value_ self))
    = (fst (set_option name_ value_ self), Ok stored)
    /\ set_option name_ value_ (fst (set_option name_ value_ self))
       = (fst (set_option name_ value_ self), Ok stored).
Proof.
  intros Hget Hcb Hok.
  destruct (coerce_uniform name_ (type o) value_)
    as [[e He]|(stored & arg & _ & _ & Hc)].
  { rewrite (set_option_raise name_ value_ self o e Hget (He self)) in Hok.
    discriminate. }
  assert (Hs : forall o', callback o' = callback o ->
                          settled o' stored arg = stored).
  { intros o' E. unfold settled. rewrite E.
    destruct (callback o) as [cb|] eqn:E'; [|reflexivity].
    now rewrite (Hcb cb eq_refl). }
  rewrite (set_option_ok name_ value_ self o _ _ Hget (Hc self)).
  rewrite (Hs o eq_refl). cbn [fst].
  exists stored. split; [now apply getitem_put_value with o|].
  assert (Hget1 : dict_get (_options (put_value self name_ stored)) name_
                  = Some (with_value o stored)).
  { now rewrite dict_get_put_value, String.eqb_refl, Hget. }
  rewrite (set_option_ok name_ value_ _ (with_value o stored) stored arg
             Hget1 (Hc _)).
  rewrite (Hs (with_value o stored) eq_refl), put_value_twice. reflexivity.
Qed.

(** ** Float options *)

Lemma prefix_dot (c : ascii) (s : string) :
  prefix "." (String c s) = is_dot c.
Proof.
  clear_platform.
  unfold is_dot. cbn [prefix].
  destruct (ascii_dec "." c) as [<-|Hne]; [now destruct s|].
  symmetry. apply Ascii.eqb_neq. congruence.
Qed.

Lemma replace_dot_cons (c : ascii) (s : string) :
  replace (String c s) "." "" =
  if is_dot c then replace s "." "" else String c (replace s "." "").
Proof.
  unfold replace. cbn [replace_from]. rewrite prefix_dot.
  now destruct (is_dot c).
Qed.

Lemma count_dot_cons (c : ascii) (s : string) :
  count (String c s) "." =
  if is_dot c then 1 + count s "." else count s ".".
Proof.
  unfold count. cbn [count_from]. rewrite prefix_dot.
  now destruct (is_dot c).
Qed.

Lemma all_digits_without_dots (s : string) :
  all_chars char_isdigit (replace s "." "")
  = all_chars (fun c => char_isdigit c || is_dot c) s.
Proof.
  induction s as [|c s IH]; [reflexivity|].
  rewrite replace_dot_cons. cbn [all_chars].
  destruct (is_dot c) eqn:Ed.
  - now rewrite IH, orb_true_r.
  - cbn [all_chars]. now rewrite IH, orb_false_r.
Qed.

Lemma nothing_without_dots (s : string) :
  String.eqb (replace s "." "") "" = all_chars is_dot s.
Proof.
  induction s as [|c s IH]; [reflexivity|].
  rewrite replace_dot_cons. cbn [all_chars].
  destruct (is_dot c); [exact IH|reflexivity].
Qed.

Lemma isdigit_alt (s : string) :
  isdigit s = negb (String.eqb s "") && all_chars char_isdigit s.
Proof. now destruct s. Qed.

(** The two guards of the Float branch, read on the characters. *)
Lemma float_guards (s : string) :
  (1 <? count s ".") || negb (isdigit (replace s "." ""))
  = negb (float_shape s).
Proof.
  unfold float_shape.
  rewrite isdigit_alt, all_digits_without_dots, nothing_without_dots.
  destruct (1 <? count s "."); cbn [negb andb orb]; [reflexivity|].
  rewrite andb_comm. reflexivity.
Qed.

(** X6: a Float option takes exactly the texts made of characters that
    isdigit accepts and at most one point, with one digit at least: any
    other text, so the empty one, a lone point, a sign or an exponent,
    raises TypeError('invalid value type').  A text of that shape is handed
    to float() as it is: a ValueError of float() is passed on with the
    registry as before; otherwise set_option returns the previous value and
    the lookup then yields the float, unless a callback vetoed it. *)
Theorem float_accepts_digits_and_one_point (self : Options)
    (name_ value_ : string) (o : Option) :
  dict_get (_options self) name_ = Some o ->
  type o = "flt" ->
  (float_shape value_ = false ->
   set_option name_ value_ self
   = (self, Raise (TypeError "invalid value type")))
  /\ (float_shape value_ = true ->
      forall f, float value_ = Some f ->
      snd (set_option name_ value_ self) = Ok (value o)
      /\ getitem name_ (fst (set_option name_ value_ self))
         = (fst (set_option name_ value_ self),
            Ok (settled o (PFloat f) (PStr value_)))
      /\ ((forall cb, callback o = Some cb ->
                      cb (PStr value_) (value o) = true) ->
          getitem name_ (fst (set_option name_ value_ self))
          = (fst (set_option name_ value_ self), Ok (PFloat f))))
  /\ (float_shape value_ = true ->
      float value_ = None ->
      set_option name_ value_ self = (self, Raise ValueError)).
Proof.
  intros Hget Hty.
  pose proof (coerce_flt name_ value_ self) as Hc.
  rewrite float_guards, <- Hty in Hc.
  split; [|split].
  - intros Hs. rewrite Hs in Hc. now apply set_option_raise with o.
  - intros Hs f Hf. rewrite Hs, Hf in Hc. cbn [negb] in Hc.
    rewrite (set_option_ok name_ value_ self o _ _ Hget Hc). cbn [fst snd].
    split; [reflexivity|].
    split; [now apply getitem_put_value with o|].
    intros Hcb.
    assert (E : settled o (PFloat f) (PStr value_) = PFloat f).
    { unfold settled. destruct (callback o) as [cb|] eqn:E; [|reflexivity].
      now rewrite (Hcb cb eq_refl). }
    rewrite E. now apply getitem_put_value with o.
  - intros Hs Hf. rewrite Hs, Hf in Hc. now apply set_option_raise with o.
Qed.

(** ** Declaring again *)

(** X7: a declaration files a fresh option under the name: it has no
    callback, its value is its default (the default given, after the two
    replacements for add_rfile), and whatever the name held before, value
    and callback included, is gone.  The options under other names are
    untouched; a name already declared keeps its place in the order and a
    new one goes last. *)
Theorem declaration_replaces_option (self : Options) (c : call) (n : string)
    (r : bool) (d : pyval) :
  declaration_of c = Some (n, r, d) ->
  (exists o,
     get_option n (perform self c) = (perform self c, Ok o)
     /\ name o = n /\ required o = r /\ callback o = None
     /\ value o = default o
     /\ default o = match c with
                    | Add_rfile _ _ _ _ => rfile_default (directories self) d
                    | _ => d
                    end)
  /\ (forall k, k <> n ->
                dict_get (_options (perform self c)) k
                = dict_get (_options self) k)
  /\ __iter__ (perform self c)
     = (perform self c,
        Ok (if existsb (String.eqb n) (dict_keys (_options self))
            then dict_keys (_options self)
            else (dict_keys (_options self) ++ [n])%list)).
Proof.
  intros Hc.
  destruct c as [m h q x|m h q x|m h q x|m h q x|m h q x|m cb|m v];
    try discriminate Hc; injection Hc as -> -> ->.
  all: split; [|split].
  all: try (eexists; unfold get_option;
            cbn [perform add_string add_integer add_float add_boolean
                 add_rfile store_option fst _options];
            rewrite dict_get_set, String.eqb_refl;
            repeat split; reflexivity).
  all: try (intros k Hk;
            cbn [perform add_string add_integer add_float add_boolean
                 add_rfile store_option fst _options];
            rewrite dict_get_set;
            destruct (String.eqb_spec n k); [congruence|reflexivity]).
  all: unfold __iter__;
       cbn [perform add_string add_integer add_float add_boolean
            add_rfile store_option fst _options];
       now rewrite dict_set_keys.
Qed.

(** ** Attaching a callback *)



(** ** Iteration and length *)

Lemma first_occurrences_step (l : list string) :
  forall acc,
  exists more,
    fold_left
      (fun acc n => if existsb (String.eqb n) acc then acc
                    else (acc ++ [n])%list) l acc
    = (acc ++ more)%list.
Proof.
  induction l as [|m l IH]; intros acc; cbn [fold_left].
  - exists []. now rewrite app_nil_r.
  - destruct (existsb (String.eqb m) acc); [apply IH|].
    destruct (IH (acc ++ [m])%list) as [more ->].
    exists (m :: more). now rewrite <- app_assoc.
Qed.

Lemma first_occurrences_complete (l : list string) :
  forall acc n,
  In n acc \/ In n l ->
  In n (fold_left
          (fun acc n => if existsb (String.eqb n) acc then acc
                        else (acc ++ [n])%list) l acc).
Proof.
  induction l as [|m l IH]; intros acc n; cbn [fold_left].
  - intros [H|[]]. exact H.
  - intros H. apply IH.
    destruct (existsb (String.eqb m) acc) eqn:E.
    + destruct H as [H|[<-|H]]; [now left| |now right].
      left. now apply existsb_eqb_In.
    + destruct H as [H|[<-|H]]; [left|left|now right];
        apply in_or_app; [now left|right; now left].
Qed.

Lemma declared_app (h h' : list call) :
  declared (h ++ h') = (declared h ++ declared h')%list.
Proof.
  induction h as [|c h IH]; [reflexivity|].
  destruct c; cbn [declared app]; now rewrite IH.
Qed.

(** X9: on the registry a history of calls has built, iteration yields
    the declared names, each once, in the order of their first
    declaration, and the length is their number.  Whatever calls follow,
    declarations, set_option or set_callback, the names already there stay
    and keep their order: later names are only added behind them. *)
Theorem iteration_follows_declarations (dirs : Directories)
    (history : list call) :
  let self := run dirs history in
  exists names,
    __iter__ self = (self, Ok names)
    /\ __len__ self = (self, Ok (Z.of_nat (List.length names)))
    /\ NoDup names
    /\ (forall n, In n names <-> In n (declared history))
    /\ names = first_occurrences (declared history)
    /\ forall more, exists later,
         __iter__ (run dirs (history ++ more))
         = (run dirs (history ++ more), Ok (names ++ later)%list).
Proof.
  intros self. exists (dict_keys (_options self)).
  pose proof (run_keys dirs history) as Hk. fold self in Hk.
  split; [reflexivity|].
  split.
  { unfold __len__, dict_keys. now rewrite length_map. }
  split; [apply (run_well_formed dirs history)|].
  split.
  { intros n. rewrite Hk. unfold first_occurrences. split.
    - intros H. apply first_occurrences_incl in H as [[]|H]. exact H.
    - intros H. apply first_occurrences_complete. now right. }
  split; [exact Hk|].
  intros more. unfold __iter__.
  rewrite (run_keys dirs (history ++ more)), declared_app, Hk.
  unfold first_occurrences. rewrite fold_left_app.
  destruct (first_occurrences_step (declared more)
              (fold_left
                 (fun acc n => if existsb (String.eqb n) acc then acc
                               else (acc ++ [n])%list)
                 (declared history) [])) as [later ->].
  now exists later.
Qed.


(** ** What every registry built by calls satisfies *)

Lemma Forall_dict_set (P : Option -> Prop) (d : dict) (k : string)
    (o : Option) :
  Forall (fun e => P (snd e)) d -> P o ->
  Forall (fun e => P (snd e)) (dict_set d k o).
Proof.
  intros Hd Ho. induction Hd as [|[k' o'] d Hx Hd IH]; cbn [dict_set].
  - now repeat constructor.
  - destruct (String.eqb k' k); constructor; auto.
Qed.

Lemma Forall_dict_update (P : Option -> Prop) (d : dict) (k : string)
    (f : Option -> Option) :
  Forall (fun e => P (snd e)) d ->
  (forall o, dict_get d k = Some o -> P (f o)) ->
  Forall (fun e => P (snd e)) (dict_update d k f).
Proof.
  intros Hd. induction Hd as [|[k' o'] d Hx Hd IH];
    cbn [dict_update dict_get]; intros Hf; [constructor|].
  destruct (String.eqb k' k); constructor; auto.
  cbn [snd]. now apply Hf.
Qed.

Lemma Forall_dict_get (P : Option -> Prop) (d : dict) (k : string)
    (o : Option) :
  Forall (fun e => P (snd e)) d -> dict_get d k = Some o -> P o.
Proof.
  intros Hd Hg. apply dict_get_In in Hg.
  rewrite Forall_forall in Hd. exact (Hd (k, o) Hg).
Qed.

(** A set_option call leaves the registry as it was or writes, under the
    name, a value of the type of the option's kind. *)
Lemma set_option_writes_native (n v : string) (self : Options) :
  fst (set_option n v self) = self
  \/ exists o stored,
       dict_get (_options self) n = Some o
       /\ native (type o) stored = true
       /\ fst (set_option n v self) = put_value self n stored.
Proof.
  destruct (dict_get (_options self) n) as [o|] eqn:Hget.
  - destruct (coerce_uniform n (type o) v)
      as [[e He]|(stored & arg & _ & Hn & Hc)].
    + left. now rewrite (set_option_raise n v self o e Hget (He self)).
    + rewrite (set_option_ok n v self o _ _ Hget (Hc self)). cbn [fst].
      unfold settled. destruct (callback o) as [cb|].
      * destruct (cb arg (value o)).
        -- right. now exists o, stored.
        -- left. now apply put_value_old.
      * right. now exists o, stored.
  - left. now rewrite set_option_unknown.
Qed.

Lemma perform_keeps (P : Option -> Prop) (self : Options) (c : call) :
  (forall o cb, P o -> P (with_callback o cb)) ->
  (forall o v, P o -> native (type o) v = true -> P (with_value o v)) ->
  (forall n r d o,
     declaration_of c = Some (n, r, d) ->
     dict_get (_options (perform self c)) n = Some o -> P o) ->
  Forall (fun e => P (snd e)) (_options self) ->
  Forall (fun e => P (snd e)) (_options (perform self c)).
Proof.
  intros Hcb Hval Hnew Hall.
  destruct c as [m h q x|m h q x|m h q x|m h q x|m h q x|m cb|m v].
  1-5: cbn [perform add_string add_integer add_float add_boolean add_rfile
            store_option fst _options];
       apply Forall_dict_set; [exact Hall|];
       apply (Hnew m q x _ eq_refl);
       cbn [perform add_string add_integer add_float add_boolean add_rfile
            store_option fst _options];
       now rewrite dict_get_set, String.eqb_refl.
  - cbn [perform]. rewrite set_callback_state.
    destruct (dict_get (_options self) m) as [o0|]; [|exact Hall].
    cbn [fst _options]. apply Forall_dict_update; [exact Hall|].
    intros o Ho. apply Hcb. now apply Forall_dict_get with (_options self) m.
  - cbn [perform].
    destruct (set_option_writes_native m v self)
      as [->|(o & stored & Hget & Hn & ->)]; [exact Hall|].
    unfold put_value, assign_value. cbn [fst _options].
    apply Forall_dict_update; [exact Hall|].
    intros o' Ho'. rewrite Hget in Ho'. injection Ho' as <-.
    apply Hval; [|exact Hn].
    now apply Forall_dict_get with (_options self) m.
Qed.

Lemma native_rfile_default (dirs : Directories) (d : pyval) :
  is_None (rfile_default dirs d) || native "rfile" (rfile_default dirs d)
  = is_None d || native "rfile" d.
Proof. now destruct d. Qed.

(** X10: if every declaration of a history gives a default that is None
    or of the type of the kind (str, int, float, bool, and str for a file
    path), then every option of the registry holds None or a value of the
    type of its kind: set_option never leaves the raw text in an Integer,
    Float or Boolean option. *)
Theorem values_stay_typed (dirs : Directories) (history : list call)
    (n : string) (o : Option) :
  forallb typed_call history = true ->
  get_option n (run dirs history) = (run dirs history, Ok o) ->
  typed o = true.
Proof.
  intros Hty Hget.
  assert (Hall : Forall (fun e => typed (snd e) = true)
                   (_options (run dirs history))).
  { clear Hget. unfold run.
    assert (H0 : Forall (fun e => typed (snd e) = true)
                   (_options (Options_init dirs))) by constructor.
    revert H0 Hty. generalize (Options_init dirs).
    induction history as [|c history IH]; intros self H0 Hty; [exact H0|].
    cbn [forallb] in Hty. apply andb_true_iff in Hty as [Hc Hty].
    cbn [fold_left]. apply IH; [|exact Hty].
    apply (perform_keeps (fun o => typed o = true)); [| | |exact H0].
    - intros x cb Hx. exact Hx.
    - intros x v _ Hv. unfold typed. cbn [with_value value type].
      rewrite Hv. apply orb_true_r.
    - intros m r d x Hd Hx.
      destruct c as [m' h q y|m' h q y|m' h q y|m' h q y|m' h q y|m' cb|m' v];
        try discriminate Hd; injection Hd as -> -> ->;
        cbn [perform add_string add_integer add_float add_boolean add_rfile
             store_option fst _options] in Hx;
        rewrite dict_get_set, String.eqb_refl in Hx; injection Hx as <-;
        unfold typed; cbn [Option_init value type]; try exact Hc.
      rewrite native_rfile_default. exact Hc. }
  unfold get_option in Hget.
  destruct (dict_get (_options (run dirs history)) n) as [o'|] eqn:E;
    [|discriminate].
  injection Hget as <-.
  now apply (Forall_dict_get (fun o => typed o = true)) with
    (_options (run dirs history)) n.
Qed.

Lemma coerce_known_raise (name_ type_ value_ : string) (self self' : Options)
    (e : exn) :
  In type_ ["str"; "rfile"; "int"; "flt"; "bool"] ->
  coerce name_ type_ value_ self = (self', Raise e) ->
  e = TypeError "invalid value type" \/ e = ValueError.
Proof.
  clear os_path_sep.
  cbn [In]. intros [<-|[<-|[<-|[<-|[<-|[]]]]]].
  - rewrite coerce_str by reflexivity. discriminate.
  - rewrite coerce_str by reflexivity. discriminate.
  - rewrite coerce_int. destruct (isdigit _).
    + destruct (int_of_str _ _); intros [= _ <-]; auto.
    + intros [= _ <-]; auto.
  - rewrite coerce_flt. destruct (_ || _).
    + intros [= _ <-]; auto.
    + destruct (float _); intros [= _ <-]; auto.
  - rewrite coerce_bool. destruct (existsb _ _); [discriminate|].
    destruct (existsb _ _); [discriminate|]. intros [= _ <-]; auto.
Qed.

(** X11: on a registry built by calls, and with callbacks that return,
    set_option raises KeyError exactly for a name that was not declared;
    for a declared name it raises, if at all, TypeError('invalid value
    type') or ValueError, and never Exception('unknown value type'). *)
Theorem set_option_raises_only (dirs : Directories) (history : list call)
    (n v : string) (e : exn) :
  snd (set_option n v (run dirs history)) = Raise e ->
  (~ In n (declared history) /\ e = KeyError n)
  \/ (In n (declared history)
      /\ (e = TypeError "invalid value type" \/ e = ValueError)).
Proof.
  intros Hr.
  assert (Hall : Forall (fun e => In (type (snd e))
                                    ["str"; "rfile"; "int"; "flt"; "bool"])
                   (_options (run dirs history))).
  { clear Hr. unfold run.
    assert (H0 : Forall (fun e => In (type (snd e))
                                    ["str"; "rfile"; "int"; "flt"; "bool"])
                   (_options (Options_init dirs))) by constructor.
    revert H0. generalize (Options_init dirs).
    induction history as [|c history IH]; intros self H0; [exact H0|].
    cbn [fold_left]. apply IH.
    apply (perform_keeps
             (fun o => In (type o) ["str"; "rfile"; "int"; "flt"; "bool"]));
      [| | |exact H0].
    - intros x cb Hx. exact Hx.
    - intros x y Hx _. exact Hx.
    - intros m r d x Hd Hx.
      destruct c as [m' h q y|m' h q y|m' h q y|m' h q y|m' h q y|m' cb|m' w];
        try discriminate Hd; injection Hd as -> -> ->;
        cbn [perform add_string add_integer add_float add_boolean add_rfile
             store_option fst _options] in Hx;
        rewrite dict_get_set, String.eqb_refl in Hx; injection Hx as <-;
        cbn; tauto. }
  pose proof (run_keys dirs history) as Hk.
  destruct (dict_get (_options (run dirs history)) n) as [o|] eqn:Hget.
  - right. split.
    + apply dict_get_In in Hget.
      assert (Hin : In n (dict_keys (_options (run dirs history)))).
      { change n with (fst (n, o)). unfold dict_keys. now apply in_map. }
      rewrite Hk in Hin. unfold first_occurrences in Hin.
      apply first_occurrences_incl in Hin as [[]|Hin]. exact Hin.
    + destruct (set_option_cases n v _ o Hget)
        as [(e' & Hc & Hs)|(stored & arg & _ & _ & Hs)];
        rewrite Hs in Hr; [|discriminate].
      injection Hr as <-.
      apply (coerce_known_raise n (type o) v (run dirs history)
               (run dirs history) e'); [|exact Hc].
      now apply (Forall_dict_get
                   (fun o => In (type o)
                               ["str"; "rfile"; "int"; "flt"; "bool"]))
        with (_options (run dirs history)) n.
  - left. rewrite set_option_unknown in Hr by exact Hget.
    injection Hr as <-. split; [|reflexivity].
    apply dict_get_None in Hget. rewrite Hk in Hget.
    intros Hin. apply Hget. unfold first_occurrences.
    apply first_occurrences_complete. now right.
Qed.


(** ** The default of a file path *)

Lemma char_in_app (a : ascii) (s t : string) :
  char_in a (s ++ t) = char_in a s || char_in a t.
Proof.
  induction s as [|c s IH]; cbn [append char_in]; [reflexivity|].
  now rewrite IH, orb_assoc.
Qed.

Lemma prefix_app (s t : string) : prefix s (s ++ t) = true.
Proof.
  clear_platform.
  induction s as [|c s IH]; cbn [append].
  - now destruct t.
  - cbn [prefix]. destruct (ascii_dec c c); [exact IH|congruence].
Qed.

(** A text without the first character of [old] holds no occurrence of
    it. *)
Lemma replace_from_absent (a : ascii) (old new s : string) :
  char_in a s = false -> replace_from (String a old) new O s = s.
Proof.
  clear_platform.
  induction s as [|c s IH]; cbn [char_in replace_from]; [reflexivity|].
  intros H. apply orb_false_elim in H as [Hc Hs].
  apply Ascii.eqb_neq in Hc.
  cbn [prefix]. destruct (ascii_dec a c); [congruence|].
  now rewrite (IH Hs).
Qed.

Lemma replace_from_skip (old new pre rest : string) :
  replace_from old new (length pre) (pre ++ rest)
  = replace_from old new O rest.
Proof.
  induction pre as [|c pre IH]; [reflexivity|].
  cbn [length append replace_from]. exact IH.
Qed.

Lemma replace_from_miss (old new : string) (c : ascii) (s : string) :
  prefix old (String c s) = false ->
  replace_from old new O (String c s) = String c (replace_from old new O s).
Proof. intros H. cbn [replace_from]. now rewrite H. Qed.

(** An occurrence at the very start is replaced and the scan goes on
    behind it. *)
Lemma replace_from_leading (a : ascii) (old new rest : string) :
  replace_from (String a old) new O (String a old ++ rest)
  = new ++ replace_from (String a old) new O rest.
Proof.
  cbn [append]. cbn [replace_from].
  change (String a (old ++ rest)) with (String a old ++ rest).
  rewrite prefix_app. cbn [length Nat.pred].
  now rewrite replace_from_skip.
Qed.

(** X12: a str default without the character "$" is stored by add_rfile
    as it is: right after the declaration the lookup yields that very
    text. *)
Theorem rfile_default_without_placeholder (self : Options)
    (n h s : string) (r : bool) :
  char_in "$" s = false ->
  getitem n (fst (add_rfile n h r (PStr s) self))
  = (fst (add_rfile n h r (PStr s) self), Ok (PStr s)).
Proof.
  intros Hs. unfold add_rfile. rewrite getitem_after_store.
  cbn [Option_init value rfile_default]. unfold replace.
  rewrite (replace_from_absent "$" _ _ s Hs).
  now rewrite (replace_from_absent "$" _ _ s Hs).
Qed.

(** X13: a str default that starts with "$DATA_PATH " and has no further
    "$" is stored by add_rfile as data_path, the separator and the rest,
    provided data_path and the separator hold no "$"; one that starts with
    "$USER_DATA " is stored as user_data, the separator and the rest. *)
Theorem rfile_default_leading_placeholder (self : Options)
    (n h rest : string) (r : bool) :
  char_in "$" rest = false ->
  (char_in "$" (data_path (directories self) ++ os_path_sep) = false ->
   getitem n (fst (add_rfile n h r (PStr ("$DATA_PATH " ++ rest)) self))
   = (fst (add_rfile n h r (PStr ("$DATA_PATH " ++ rest)) self),
      Ok (PStr ((data_path (directories self) ++ os_path_sep) ++ rest))))
  /\ getitem n (fst (add_rfile n h r (PStr ("$USER_DATA " ++ rest)) self))
     = (fst (add_rfile n h r (PStr ("$USER_DATA " ++ rest)) self),
        Ok (PStr ((user_data (directories self) ++ os_path_sep) ++ rest))).
Proof.
  intros Hrest. split.
  - intros Hdir. unfold add_rfile. rewrite getitem_after_store.
    cbn [Option_init value rfile_default]. unfold replace.
    rewrite replace_from_leading, (replace_from_absent "$" _ _ rest Hrest).
    rewrite replace_from_absent; [reflexivity|].
    now rewrite char_in_app, Hdir, Hrest.
  - unfold add_rfile. rewrite getitem_after_store.
    cbn [Option_init value rfile_default]. unfold replace.
    assert (E : replace_from "$DATA_PATH "
                  (data_path (directories self) ++ os_path_sep) O
                  ("$USER_DATA " ++ rest)
                = "$USER_DATA " ++ rest).
    { change ("$USER_DATA " ++ rest)
        with (String "$" ("USER_DATA " ++ rest)).
      rewrite replace_from_miss by reflexivity.
      f_equal. apply replace_from_absent.
      rewrite char_in_app, Hrest. reflexivity. }
    rewrite E, replace_from_leading, (replace_from_absent "$" _ _ rest Hrest).
    reflexivity.
Qed.

End Registry.

Arguments PNone {PyFloat}.
Arguments PBool {PyFloat} b.
Arguments PInt {PyFloat} z.
Arguments PFloat {PyFloat} f.
Arguments PStr {PyFloat} s.
Arguments Options_init {PyFloat} directories_.
Arguments getitem {PyFloat} item _.
Arguments get_option {PyFloat} name_ _.
Arguments set_option {PyFloat} float name_ value_ _.
Arguments set_callback {PyFloat} name_ callback_ _.
Arguments add_string {PyFloat} name_ help_ required_ default_ _.
Arguments add_integer {PyFloat} name_ help_ required_ default_ _.
Arguments add_float {PyFloat} name_ help_ required_ default_ _.
Arguments add_boolean {PyFloat} name_ help_ required_ default_ _.
Arguments add_rfile {PyFloat} os_path_sep name_ help_ required_ default_ _.
Arguments rfile_default {PyFloat} os_path_sep dirs default_.
Arguments coerce {PyFloat} float name_ type_ value_ _.
Arguments put_value {PyFloat} self name_ v.
Arguments settled {PyFloat} o stored arg.
Arguments run {PyFloat} float os_path_sep dirs history.
Arguments Add_string {PyFloat} name_ help_ required_ default_.
Arguments Add_integer {PyFloat} name_ help_ required_ default_.
Arguments Add_float {PyFloat} name_ help_ required_ default_.
Arguments Add_boolean {PyFloat} name_ help_ required_ default_.
Arguments Add_rfile {PyFloat} name_ help_ required_ default_.
Arguments Set_callback {PyFloat} name_ callback_.
Arguments Set_option {PyFloat} name_ value_.
Arguments Build_Options {PyFloat} directories _options.
Arguments directories {PyFloat} _.
Arguments _options {PyFloat} _.
Arguments dict_get {PyFloat} d k.
Arguments value {PyFloat} _.
Arguments type {PyFloat} _.
Arguments callback {PyFloat} _.
Arguments default {PyFloat} _.
Arguments perform {PyFloat} float os_path_sep self c.
Arguments __iter__ {PyFloat} _.
Arguments __len__ {PyFloat} _.
Arguments get_missing_options {PyFloat} _.
Arguments with_callback {PyFloat} o cb.
Arguments typed {PyFloat} o.

(** C8: right after a declaration the value lookup of the declared name
    yields the declared default; for add_rfile with a str default it yields
    the default in which first every "$DATA_PATH " has been replaced by
    data_path and the separator and then every "$USER_DATA " by user_data
    and the separator, and a default that is no str is kept as it is.  The
    replaced text is what the dict holds: a lookup under another
    [directories] object yields the same value.  With data_path "/etc/app"
    and the separator "/", the default "$DATA_PATH config.ini" is stored as
    "/etc/app/config.ini". *)
Theorem C8_value_after_declaration :
  (forall (PyFloat : Type) (sep : string) (self : Options PyFloat)
          (n h : string) (r : bool) (d : pyval PyFloat),
      let after (m : M PyFloat unit) := fst (m self) in
      getitem n (after (add_string n h r d))
      = (after (add_string n h r d), Ok d)
      /\ getitem n (after (add_integer n h r d))
         = (after (add_integer n h r d), Ok d)
      /\ getitem n (after (add_float n h r d))
         = (after (add_float n h r d), Ok d)
      /\ getitem n (after (add_boolean n h r d))
         = (after (add_boolean n h r d), Ok d)
      /\ getitem n (after (add_rfile sep n h r d))
         = (after (add_rfile sep n h r d),
            Ok (rfile_default sep (directories self) d))
      /\ (forall dirs',
            snd (getitem n
                   {| directories := dirs';
                      _options := _options (after (add_rfile sep n h r d)) |})
            = Ok (rfile_default sep (directories self) d))
      /\ match d with
         | PStr s =>
             rfile_default sep (directories self) d
             = PStr (replace
                       (replace s "$DATA_PATH "
                          (data_path (directories self) ++ sep))
                       "$USER_DATA " (user_data (directories self) ++ sep))
         | _ => rfile_default sep (directories self) d = d
         end)
  /\ (forall (PyFloat : Type) (user : string),
        rfile_default (PyFloat := PyFloat) posix_sep
          {| data_path := "/etc/app"; user_data := user |}
          (PStr "$DATA_PATH config.ini")
        = PStr "/etc/app/config.ini").
Proof.
  split.
  - intros PyFloat sep self n h r d after. unfold after.
    repeat split; try apply getitem_after_store.
    + intros dirs'. unfold getitem, bind, get_option.
      cbn [add_rfile store_option fst _options].
      now rewrite dict_get_set, String.eqb_refl.
    + now destruct d.
  - reflexivity.
Qed.

(** * The properties at concrete registries

    The examples run with [exact_float] for [float] and [posix_sep] for the
    separator. *)

Lemma C3_callback_vetoes_or_commits_witness :
  let declared_ :=
    run exact_float posix_sep
      {| data_path := "/etc/app"; user_data := "/home/user" |}
      [Add_boolean "VERBOSE" "chatty" true (PBool false)] in
  let vetoing := fst (set_callback "VERBOSE" (fun _ _ => false) declared_) in
  let accepting := fst (set_callback "VERBOSE" (fun _ _ => true) declared_) in
  (snd (set_option exact_float "VERBOSE" "on" vetoing) = Ok (PBool false)
   /\ snd (getitem "VERBOSE"
             (fst (set_option exact_float "VERBOSE" "on" vetoing)))
      = Ok (PBool false)
   /\ fst (set_option exact_float "VERBOSE" "on" vetoing) = vetoing)
  /\ (snd (set_option exact_float "VERBOSE" "on" accepting) = Ok (PBool false)
      /\ snd (getitem "VERBOSE"
                (fst (set_option exact_float "VERBOSE" "on" accepting)))
         = Ok (PBool true)).
Proof.
  intros declared_ vetoing accepting. split.
  - destruct (C3_callback_vetoes_or_commits Q exact_float vetoing
                "VERBOSE" "on"
                {| callback := Some (fun _ _ => false);
                   default := PBool false; help := "chatty";
                   name := "VERBOSE"; required := true; type := "bool";
                   value := PBool false |}
                (fun _ _ => false) (PStr "on") eq_refl eq_refl eq_refl)
      as (stored & Hv & Hret & Hget & Hsame).
    split; [exact Hret|]. split; [now rewrite Hget|].
    apply Hsame. reflexivity.
  - destruct (C3_callback_vetoes_or_commits Q exact_float accepting
                "VERBOSE" "on"
                {| callback := Some (fun _ _ => true);
                   default := PBool false; help := "chatty";
                   name := "VERBOSE"; required := true; type := "bool";
                   value := PBool false |}
                (fun _ _ => true) (PStr "on") eq_refl eq_refl eq_refl)
      as (stored & Hv & Hret & Hget & _).
    split; [exact Hret|]. rewrite Hget. cbn [snd].
    destruct stored as [|[|]|z|f|t]; cbn in Hv.
    + destruct Hv.
    + reflexivity.
    + destruct Hv as [_ [H|[H|[H|[]]]]]; discriminate H.
    + destruct Hv as [H _]. discriminate H.
    + destruct Hv as [H _]. discriminate H.
    + destruct Hv as [[H|H] _]; discriminate H.
Defined.

Lemma C4_failed_set_leaves_value_witness :
  let self :=
    run exact_float posix_sep
      {| data_path := "/etc/app"; user_data := "/home/user" |}
      [Add_float "RATE" "rate" true (PFloat 2.5%Q)] in
  snd (set_option exact_float "RATE" "1.2.3" self)
  = Raise (TypeError "invalid value type")
  /\ fst (set_option exact_float "RATE" "1.2.3" self) = self
  /\ getitem "RATE" (fst (set_option exact_float "RATE" "1.2.3" self))
     = getitem "RATE" self.
Proof.
  intros self. split; [reflexivity|].
  apply (C4_failed_set_leaves_value Q exact_float self "RATE" "1.2.3"
           (TypeError "invalid value type")).
  reflexivity.
Defined.

Lemma C5_decimal_round_trip_witness :
  let self :=
    run exact_float posix_sep
      {| data_path := "/etc/app"; user_data := "/home/user" |}
      [Add_integer "PORT" "port" true PNone] in
  str 8080 = Some "8080"
  /\ snd (set_option exact_float "PORT" "8080" self) = Ok PNone
  /\ getitem "PORT" (fst (set_option exact_float "PORT" "8080" self))
     = (fst (set_option exact_float "PORT" "8080" self), Ok (PInt 8080)).
Proof.
  intros self. split; [reflexivity|].
  assert (Hn : 0 <= 8080 < 10 ^ int_max_str_digits).
  { split; [lia|].
    apply Z.lt_le_trans with (10 ^ 4); [reflexivity|].
    apply Z.pow_le_mono_r; [lia|].
    unfold int_max_str_digits. lia. }
  destruct (C5_decimal_round_trip Q exact_float self "PORT"
              {| callback := None; default := PNone; help := "port";
                 name := "PORT"; required := true; type := "int";
                 value := PNone |} 8080 eq_refl eq_refl Hn)
    as (s & Hs & H).
  assert (E : s = "8080").
  { assert (Hc : str 8080 = Some "8080") by reflexivity.
    rewrite Hc in Hs. now injection Hs. }
  subst s. apply H. intros cb Hcb. discriminate Hcb.
Defined.

(** C5 as stated fails in two ways.  For a negative integer: str(-5) is
    "-5", which is no digit string, so the call raises and the lookup does
    not yield -5.  For an option whose callback vetoes: the call for
    str(5) returns, and the lookup yields the old value, not 5. *)
Lemma C5_round_trip_counterexample :
  let self :=
    run exact_float posix_sep
      {| data_path := "/etc/app"; user_data := "/home/user" |}
      [Add_integer "LEVEL" "level" true PNone] in
  let vetoing := fst (set_callback "LEVEL" (fun _ _ => false) self) in
  (str (-5) = Some "-5"
   /\ set_option exact_float "LEVEL" "-5" self
      = (self, Raise (TypeError "invalid value type"))
   /\ snd (getitem "LEVEL" (fst (set_option exact_float "LEVEL" "-5" self)))
      <> Ok (PInt (-5)))
  /\ (str 5 = Some "5"
      /\ snd (set_option exact_float "LEVEL" "5" vetoing) = Ok PNone
      /\ snd (getitem "LEVEL"
                (fst (set_option exact_float "LEVEL" "5" vetoing)))
         <> Ok (PInt 5)).
Proof.
  intros self vetoing. split.
  - split; [reflexivity|]. split; [reflexivity|].
    intros H. vm_compute in H. discriminate H.
  - split; [reflexivity|]. split; [reflexivity|].
    intros H. vm_compute in H. discriminate H.
Qed.

Lemma C7_boolean_literals_witness :
  let self :=
    run exact_float posix_sep
      {| data_path := "/etc/app"; user_data := "/home/user" |}
      [Add_boolean "VERBOSE" "chatty" true PNone] in
  (snd (set_option exact_float "VERBOSE" "ON" self) = Ok PNone
   /\ getitem "VERBOSE" (fst (set_option exact_float "VERBOSE" "ON" self))
      = (fst (set_option exact_float "VERBOSE" "ON" self), Ok (PBool true)))
  /\ (snd (set_option exact_float "VERBOSE" "Off" self) = Ok PNone
      /\ getitem "VERBOSE" (fst (set_option exact_float "VERBOSE" "Off" self))
         = (fst (set_option exact_float "VERBOSE" "Off" self),
            Ok (PBool false)))
  /\ set_option exact_float "VERBOSE" "yes" self
     = (self, Raise (TypeError "invalid value type")).
Proof.
  intros self.
  pose (o := {| callback := None; default := @PNone Q; help := "chatty";
                name := "VERBOSE"; required := true; type := "bool";
                value := PNone |}).
  split; [|split].
  - apply (proj1 (C7_boolean_literals Q exact_float self "VERBOSE" "ON" o
                    eq_refl eq_refl)).
    + intros cb H. discriminate H.
    + simpl. tauto.
  - apply (proj1 (proj2 (C7_boolean_literals Q exact_float self "VERBOSE"
                           "Off" o eq_refl eq_refl))).
    + intros cb H. discriminate H.
    + simpl. tauto.
  - apply (proj2 (proj2 (C7_boolean_literals Q exact_float self
                           "VERBOSE" "yes" o eq_refl eq_refl))).
    simpl. intros H.
    repeat (destruct H as [H|H]; [discriminate H|]). exact H.
Defined.

(** C7 as stated fails for an option whose callback vetoes: the input
    "true" is accepted, the call returns, and the lookup yields the old
    value None, not True. *)
Lemma C7_vetoed_literal_counterexample :
  let self :=
    run exact_float posix_sep
      {| data_path := "/etc/app"; user_data := "/home/user" |}
      [Add_boolean "VERBOSE" "chatty" true PNone;
       Set_callback "VERBOSE" (fun _ _ => false)] in
  snd (set_option exact_float "VERBOSE" "true" self) = Ok PNone
  /\ snd (getitem "VERBOSE"
            (fst (set_option exact_float "VERBOSE" "true" self)))
     = Ok PNone
  /\ snd (getitem "VERBOSE"
            (fst (set_option exact_float "VERBOSE" "true" self)))
     <> Ok (PBool true).
Proof.
  intros self. split; [reflexivity|]. split; [reflexivity|].
  intros H. vm_compute in H. discriminate H.
Qed.

Lemma C9_undeclared_name_raises_witness :
  let self :=
    run exact_float posix_sep
      {| data_path := "/etc/app"; user_data := "/home/user" |}
      [Add_string "HOST" "host" true (PStr "localhost")] in
  set_option exact_float "UNDEFINED_NAME" "x" self
  = (self, Raise (KeyError "UNDEFINED_NAME"))
  /\ getitem "UNDEFINED_NAME" self = (self, Raise (KeyError "UNDEFINED_NAME"))
  /\ get_option "UNDEFINED_NAME" self
     = (self, Raise (KeyError "UNDEFINED_NAME"))
  /\ set_callback "UNDEFINED_NAME" (fun _ _ => true) self
     = (self, Raise (KeyError "UNDEFINED_NAME")).
Proof.
  apply (C9_undeclared_name_raises Q exact_float posix_sep
           {| data_path := "/etc/app"; user_data := "/home/user" |}
           [Add_string "HOST" "host" true (PStr "localhost")]
           "UNDEFINED_NAME" "x" (fun _ _ => true)).
  simpl. intros [H|H]; [discriminate H|exact H].
Defined.

(** * The further properties at concrete registries *)

Lemma integer_rejects_non_digit_text_witness :
  let self :=
    run exact_float posix_sep
      {| data_path := "/etc/app"; user_data := "/home/user" |}
      [Add_integer "PORT" "port" true (PInt 80)] in
  set_option exact_float "PORT" "0xFF" self
  = (self, Raise (TypeError "invalid value type")).
Proof.
  intros self.
  apply (integer_rejects_non_digit_text Q exact_float self "PORT" "0xFF"
           {| callback := None; default := PInt 80; help := "port";
              name := "PORT"; required := true; type := "int";
              value := PInt 80 |}); reflexivity.
Defined.

Lemma integer_non_decimal_digit_is_value_error_witness :
  let self :=
    run exact_float posix_sep
      {| data_path := "/etc/app"; user_data := "/home/user" |}
      [Add_integer "PORT" "port" true (PInt 80)] in
  set_option exact_float "PORT"
    (String "4" (String (ascii_of_N 178) EmptyString)) self
  = (self, Raise ValueError).
Proof.
  intros self.
  apply (integer_non_decimal_digit_is_value_error Q exact_float self "PORT"
           (String "4" (String (ascii_of_N 178) EmptyString))
           {| callback := None; default := PInt 80; help := "port";
              name := "PORT"; required := true; type := "int";
              value := PInt 80 |}); reflexivity.
Defined.

Lemma integer_never_stores_negative_witness :
  let self :=
    run exact_float posix_sep
      {| data_path := "/etc/app"; user_data := "/home/user" |}
      [Add_integer "PORT" "port" true (PInt (-1))] in
  exists v,
    getitem "PORT" (fst (set_option exact_float "PORT" "0042" self))
    = (fst (set_option exact_float "PORT" "0042" self), Ok v)
    /\ (v = PInt (-1) \/ exists z, v = PInt z /\ 0 <= z).
Proof.
  intros self.
  apply (integer_never_stores_negative Q exact_float self "PORT" "0042"
           {| callback := None; default := PInt (-1); help := "port";
              name := "PORT"; required := true; type := "int";
              value := PInt (-1) |}); reflexivity.
Defined.

Lemma text_is_stored_verbatim_witness :
  let self :=
    run exact_float posix_sep
      {| data_path := "/etc/app"; user_data := "/home/user" |}
      [Add_rfile "CONFIG" "settings" true (PStr "$DATA_PATH config.ini")] in
  getitem "CONFIG" self = (self, Ok (PStr "/etc/app/config.ini"))
  /\ getitem "CONFIG"
       (fst (set_option exact_float "CONFIG" "$DATA_PATH other.ini" self))
     = (fst (set_option exact_float "CONFIG" "$DATA_PATH other.ini" self),
        Ok (PStr "$DATA_PATH other.ini")).
Proof.
  intros self. split; [reflexivity|].
  apply (text_is_stored_verbatim Q exact_float self "CONFIG"
           "$DATA_PATH other.ini"
           {| callback := None; default := PStr "/etc/app/config.ini";
              help := "settings"; name := "CONFIG"; required := true;
              type := "rfile"; value := PStr "/etc/app/config.ini" |}).
  - reflexivity.
  - now right.
  - intros cb H. discriminate H.
Defined.

Lemma set_option_twice_witness :
  let self :=
    run exact_float posix_sep
      {| data_path := "/etc/app"; user_data := "/home/user" |}
      [Add_integer "PORT" "port" true PNone] in
  exists stored,
    getitem "PORT" (fst (set_option exact_float "PORT" "8080" self))
    = (fst (set_option exact_float "PORT" "8080" self), Ok stored)
    /\ set_option exact_float "PORT" "8080"
         (fst (set_option exact_float "PORT" "8080" self))
       = (fst (set_option exact_float "PORT" "8080" self), Ok stored).
Proof.
  intros self.
  apply (set_option_twice Q exact_float self "PORT" "8080"
           {| callback := None; default := PNone; help := "port";
              name := "PORT"; required := true; type := "int";
              value := PNone |} PNone).
  - reflexivity.
  - intros cb H. discriminate H.
  - reflexivity.
Defined.

Lemma float_accepts_digits_and_one_point_witness :
  let self :=
    run exact_float posix_sep
      {| data_path := "/etc/app"; user_data := "/home/user" |}
      [Add_float "RATE" "rate" true PNone] in
  set_option exact_float "RATE" "-1.5" self
  = (self, Raise (TypeError "invalid value type"))
  /\ set_option exact_float "RATE" "1e5" self
     = (self, Raise (TypeError "invalid value type"))
  /\ getitem "RATE" (fst (set_option exact_float "RATE" "1.5" self))
     = (fst (set_option exact_float "RATE" "1.5" self),
        Ok (PFloat (15 # 10))).
Proof.
  intros self.
  pose (o := {| callback := None; default := @PNone Q; help := "rate";
                name := "RATE"; required := true; type := "flt";
                value := PNone |}).
  split; [|split].
  - apply (proj1 (float_accepts_digits_and_one_point Q exact_float self
                    "RATE" "-1.5" o eq_refl eq_refl)).
    reflexivity.
  - apply (proj1 (float_accepts_digits_and_one_point Q exact_float self
                    "RATE" "1e5" o eq_refl eq_refl)).
    reflexivity.
  - destruct (proj1 (proj2 (float_accepts_digits_and_one_point Q exact_float
                              self "RATE" "1.5" o eq_refl eq_refl))
                eq_refl (15 # 10) eq_refl) as (_ & _ & H).
    apply H. intros cb Hcb. discriminate Hcb.
Defined.

Lemma declaration_replaces_option_witness :
  let self :=
    run exact_float posix_sep
      {| data_path := "/etc/app"; user_data := "/home/user" |}
      [Add_boolean "VERBOSE" "chatty" true PNone;
       Add_string "HOST" "host" true (PStr "localhost");
       Set_callback "VERBOSE" (fun _ _ => true);
       Set_option "VERBOSE" "on"] in
  let self' :=
    perform exact_float posix_sep self
      (Add_integer "VERBOSE" "level" false (PInt 3)) in
  __iter__ self' = (self', Ok ["VERBOSE"; "HOST"])
  /\ dict_get (_options self') "HOST" = dict_get (_options self) "HOST".
Proof.
  intros self self'.
  destruct (declaration_replaces_option Q exact_float posix_sep self
              (Add_integer "VERBOSE" "level" false (PInt 3)) "VERBOSE" false
              (PInt 3) eq_refl) as (_ & Hother & Hiter).
  split; [exact Hiter|].
  apply Hother. discriminate.
Defined.


Lemma values_stay_typed_witness :
  typed {| callback := None; default := @PNone Q; help := "rate";
           name := "RATE"; required := true; type := "flt";
           value := PFloat (25 # 10) |} = true.
Proof.
  apply (values_stay_typed Q exact_float posix_sep
           {| data_path := "/etc/app"; user_data := "/home/user" |}
           [Add_integer "PORT" "port" true (PInt 80);
            Set_option "PORT" "8080";
            Add_float "RATE" "rate" true PNone;
            Set_option "RATE" "2.5"]
           "RATE"); reflexivity.
Defined.

Lemma set_option_raises_only_witness :
  (~ In "PORT" ["PORT"] /\ TypeError "invalid value type" = KeyError "PORT")
  \/ (In "PORT" ["PORT"]
      /\ (TypeError "invalid value type" = TypeError "invalid value type"
          \/ TypeError "invalid value type" = ValueError)).
Proof.
  apply (set_option_raises_only Q exact_float posix_sep
           {| data_path := "/etc/app"; user_data := "/home/user" |}
           [Add_integer "PORT" "port" true (@PNone Q)] "PORT" "eighty"
           (TypeError "invalid value type")).
  reflexivity.
Defined.

Lemma rfile_default_without_placeholder_witness :
  let self :=
    Options_init (PyFloat := Q)
      {| data_path := "/etc/app"; user_data := "/home/user" |} in
  getitem "LOG"
    (fst (add_rfile posix_sep "LOG" "log" true (PStr "/var/log/app.log") self))
  = (fst (add_rfile posix_sep "LOG" "log" true (PStr "/var/log/app.log")
            self),
     Ok (PStr "/var/log/app.log")).
Proof.
  intros self.
  apply (rfile_default_without_placeholder Q posix_sep self "LOG" "log"
           "/var/log/app.log" true).
  reflexivity.
Defined.

Lemma rfile_default_leading_placeholder_witness :
  let self :=
    Options_init (PyFloat := Q)
      {| data_path := "/etc/app"; user_data := "/home/user" |} in
  getitem "KEYS"
    (fst (add_rfile posix_sep "KEYS" "keys" true
            (PStr ("$USER_DATA " ++ "keys.txt")) self))
  = (fst (add_rfile posix_sep "KEYS" "keys" true
            (PStr ("$USER_DATA " ++ "keys.txt")) self),
     Ok (PStr (("/home/user" ++ posix_sep) ++ "keys.txt"))).
Proof.
  intros self.
  apply (rfile_default_leading_placeholder Q posix_sep self "KEYS" "keys"
           "keys.txt" true).
  reflexivity.
Defined.
